(** * Model lifecycle core of mlops-hw01: registry, store, training, inference

    A shallow embedding of the Python sources
      - [src/models/registry.py]
      - [src/core/services/models/model_store.py]
      - [src/core/services/dataset/dataset_service.py] ([load_df])
      - [src/core/services/models/training_service.py]
      - [src/core/services/models/inference_service.py]
    followed by the properties the specification states about them.

    Conventions.
    - A Python [dict] with string keys is a [gmap string _]; sequences whose
      order is observable (column lists, instance lists) are [list]s.
    - Code that touches the file system runs in the monad [M]: a world is
      passed along and a call either returns a value or raises a Python
      exception.  Effects performed before a [raise] stay in the world.
    - pandas and scikit-learn are libraries, not code of this repository.
      What the sources ask from them is collected in the class [MLBackend];
      every statement about training holds for an arbitrary backend. *)

From stdpp Require Import base option list strings gmap fin_maps sorting.
From Stdlib Require Import QArith.

Open Scope Z_scope.
Open Scope string_scope.

(** ** Python values *)

(** JSON-like values, as they appear in hyperparameters, instances and
    metadata records.  [PNaN] is the float NaN pandas uses for a missing
    cell; finite floats are rationals. *)
#[warnings="-register-all"]
Inductive pyval : Type :=
  | PNone
  | PNaN
  | PBool (b : bool)
  | PInt (z : Z)
  | PFloat (q : Q)
  | PStr (s : string)
  | PList (l : list pyval)
  | PDict (d : gmap string pyval).


(** Truthiness of an optional string, as in [model_id or uuid4().hex]. *)
Definition str_or (s : option string) (alt : string) : string :=
  match s with
  | Some s' => if bool_decide (s' = "") then alt else s'
  | None => alt
  end.

(** ** Exceptions *)

(** The exception classes the core raises or lets through.
    [ModelNotFoundError] subclasses [KeyError]; [DatasetNotFoundError]
    subclasses [FileNotFoundError]; [DatasetReadError],
    [TargetColumnNotFoundError] and [NoInstancesError] subclass
    [ValueError].  All of them derive from [Exception]. *)
Inductive exn : Type :=
  | DatasetNotFoundError
  | DatasetReadError (detail : string)
  | TargetColumnNotFoundError (column : string)
  | ModelNotFoundError (msg : string)
  | NoInstancesError (msg : string)
  | KeyError (msg : string)
  | ValueError (msg : string)
  | AttributeError (msg : string)
  | TypeError (msg : string)
  | FileNotFoundError (path : string)
  | OSError (msg : string).

(** [isinstance(e, ValueError)], the test the transports apply last. *)
Definition isinstance_ValueError (e : exn) : bool :=
  match e with
  | DatasetReadError _ | TargetColumnNotFoundError _
  | NoInstancesError _ | ValueError _ => true
  | _ => false
  end.

Inductive PyResult (A : Type) : Type :=
  | Ok (a : A)
  | Raise (e : exn).
Arguments Ok {A} a.
Arguments Raise {A} e.


(** ** Frames *)

Inductive dtype : Type := DObject | DCategory | DNumber.

Record column : Type := Column {
  col_name : string;
  col_values : list pyval;
}.

(** A pandas frame: an index of [df_nrows] rows and named columns, each
    holding one cell per row. *)
Record DataFrame : Type := Frame {
  df_nrows : nat;
  df_cols : list column;
}.

(** [df.columns] *)
Definition df_columns (df : DataFrame) : list string :=
  col_name <$> df_cols df.

(** Every column has one cell per row of the index. *)
Definition df_rect (df : DataFrame) : Prop :=
  Forall (λ c, length (col_values c) = df_nrows df) (df_cols df).

(** ** Estimators and fitted pipelines *)

Inductive model_cls : Type := LogisticRegression | RandomForestClassifier.

(** An estimator as built by calling [cls] on the merged keyword
    arguments: scikit-learn constructors store their keyword arguments and
    do nothing else. *)
Record Estimator : Type := MkEstimator {
  est_cls : model_cls;
  est_params : gmap string pyval;
}.

(** [ColumnTransformer] of [_build_preprocessor]: a median imputer on the
    numeric columns; a most-frequent imputer followed by a one-hot encoder
    ignoring unknown categories on the categorical ones. *)
Record Preprocessor : Type := ColumnTransformer {
  num_cols : list string;
  cat_cols : list string;
}.

(** [Pipeline(steps=[("prep", preprocessor), ("model", model)])], unfitted. *)
Record PipelineSpec : Type := MkPipelineSpec {
  ps_prep : Preprocessor;
  ps_model : Estimator;
}.

Definition matrix : Type := list (list Q).

(** A step of a fitted pipeline, seen through the two attributes [predict]
    looks for; [None] stands for an attribute the object does not have. *)
Record Step : Type := MkStep {
  step_transform : option (DataFrame → PyResult matrix);
  step_predict_proba : option (matrix → PyResult matrix);
}.

(** A fitted pipeline as [joblib] stores and restores it.
    [pipe_named_steps = None] models an object without the attribute. *)
Record Pipeline : Type := MkPipeline {
  pipe_predict : DataFrame → PyResult (list pyval);
  pipe_named_steps : option (gmap string Step);
}.

(** ** The world *)

(** What [pd.read_csv] makes of a dataset file. *)
Inductive csv_file : Type :=
  | CsvFrame (df : DataFrame)
  | CsvBroken (detail : string).

Record ModelSpec : Type := MkModelSpec {
  key : string;
  cls : model_cls;
  defaults : gmap string pyval;
}.

(** Files are addressed by their path strings.
    - [w_registry]: the module-level [registry._specs];
    - [w_datasets]: the files under [data/datasets];
    - [w_index]: the parsed content of [artifacts/models/index.json],
      [None] when the file does not exist;
    - [w_artifacts]: the [.joblib] files, holding the dumped pipelines. *)
Record World : Type := MkWorld {
  w_registry : gmap string ModelSpec;
  w_datasets : gmap string csv_file;
  w_index : option (gmap string (gmap string pyval));
  w_artifacts : gmap string Pipeline;
}.

Definition set_index (i : option (gmap string (gmap string pyval))) (w : World) : World :=
  MkWorld (w_registry w) (w_datasets w) i (w_artifacts w).

Definition set_artifacts (a : gmap string Pipeline) (w : World) : World :=
  MkWorld (w_registry w) (w_datasets w) (w_index w) a.

Definition set_registry (r : gmap string ModelSpec) (w : World) : World :=
  MkWorld r (w_datasets w) (w_index w) (w_artifacts w).

(** ** The monad of effectful Python code *)

Definition M (A : Type) : Type := World → PyResult A * World.

Definition ret {A} (a : A) : M A := λ w, (Ok a, w).

Definition raise {A} (e : exn) : M A := λ w, (Raise e, w).

Definition bind {A B} (m : M A) (f : A → M B) : M B :=
  λ w, match m w with
       | (Ok a, w') => f a w'
       | (Raise e, w') => (Raise e, w')
       end.

(** [try: m  except Exception as e: h e] *)
Definition try_except {A} (m : M A) (h : exn → M A) : M A :=
  λ w, match m w with
       | (Ok a, w') => (Ok a, w')
       | (Raise e, w') => h e w'
       end.

(** Lift a library call that does not touch the world. *)
Definition lift {A} (r : PyResult A) : M A := λ w, (r, w).

Definition get_world : M World := λ w, (Ok w, w).

Definition modify_world (f : World → World) : M unit := λ w, (Ok tt, f w).

Global Instance M_ret : MRet M := @ret.
Global Instance M_bind : MBind M := λ A B f m, bind m f.

(** ** [src/models/registry.py] *)

(** The methods of the dataclass [ModelSpec]; the record of that name is
    declared with the world above. *)
Module ModelSpecM.

(** [ModelSpec.build]: [params or {}], the comprehension keeping the
    allowed keys, the merge in which [clean] wins over the defaults, and
    the constructor call. *)
Definition build (self : ModelSpec) (params : option (gmap string pyval)) : Estimator :=
  let params := default ∅ params in
  let allowed := dom (defaults self) in
  let clean := filter (λ kv : string * pyval, kv.1 ∈ allowed) params in
  let merged := clean ∪ defaults self in
  MkEstimator (cls self) merged.

End ModelSpecM.

Module ModelRegistry.

(** [register]: [self._specs[spec.key] = spec] *)
Definition register (spec : ModelSpec) : M unit :=
  modify_world (λ w, set_registry (<[key spec := spec]> (w_registry w)) w).

(** [get] *)
Definition get (k : string) : M ModelSpec :=
  w ← get_world;
  match w_registry w !! k with
  | None => raise (KeyError ("Unknown model_key: " +:+ k))
  | Some spec => ret spec
  end.

(** [defaults]: a copy of the spec's mapping *)
Definition defaults (k : string) : M (gmap string pyval) :=
  spec ← get k;
  ret (defaults spec).

(** [build] *)
Definition build (k : string) (params : option (gmap string pyval)) : M Estimator :=
  spec ← get k;
  ret (ModelSpecM.build spec params).

End ModelRegistry.

Definition logistic_regression_spec : ModelSpec :=
  MkModelSpec "logistic_regression" LogisticRegression
    (<["C" := PFloat 1]> (<["max_iter" := PInt 200]> (<["solver" := PStr "lbfgs"]> ∅))).

Definition random_forest_spec : ModelSpec :=
  MkModelSpec "random_forest" RandomForestClassifier
    (<["n_estimators" := PInt 200]> (<["max_depth" := PNone]>
      (<["random_state" := PInt 42]> (<["n_jobs" := PInt (-1)]> ∅)))).

(** The module-level initialisation: two [registry.register] calls on a
    fresh [ModelRegistry()]. *)
Definition registry_init : M unit :=
  ModelRegistry.register logistic_regression_spec;;
  ModelRegistry.register random_forest_spec.

(** [get_default_hyperparams] *)
Definition get_default_hyperparams (model_key : string) : M (gmap string pyval) :=
  ModelRegistry.defaults model_key.

(** [build_model] *)
Definition build_model (model_key : string) (params : gmap string pyval) : M Estimator :=
  ModelRegistry.build model_key (Some params).

(** ** [src/core/services/models/model_store.py] *)

Definition MODELS_DIR : string := "artifacts/models".
Definition INDEX_PATH : string := "artifacts/models/index.json".

(** [model_path]: [MODELS_DIR / f"{model_id}.joblib"] *)
Definition model_path (model_id : string) : string :=
  MODELS_DIR +:+ "/" +:+ model_id +:+ ".joblib".

(** Where a disk operation of [save_model] is made to fail.  A failing
    operation raises and leaves the file it was about to write as it was. *)
Inductive io_fault : Type :=
  | NoFault
  | FaultDump (e : exn)
  | FaultWriteIndex (e : exn).

(** [_ensure]: create the directory and, when missing, an empty index. *)
Definition _ensure : M unit :=
  modify_world (λ w, match w_index w with
                     | None => set_index (Some ∅) w
                     | Some _ => w
                     end).

(** [_read_index] *)
Definition _read_index : M (gmap string (gmap string pyval)) :=
  _ensure;;
  w ← get_world;
  ret (default ∅ (w_index w)).

(** [_write_index]: the whole file is replaced. *)
Definition _write_index (flt : io_fault) (index : gmap string (gmap string pyval)) : M unit :=
  match flt with
  | FaultWriteIndex e => raise e
  | _ => modify_world (set_index (Some index))
  end.

(** [joblib.dump] *)
Definition dump (flt : io_fault) (pipeline : Pipeline) (path : string) : M unit :=
  match flt with
  | FaultDump e => raise e
  | _ => modify_world (λ w, set_artifacts (<[path := pipeline]> (w_artifacts w)) w)
  end.

(** [joblib.load] *)
Definition load (path : string) : M Pipeline :=
  w ← get_world;
  match w_artifacts w !! path with
  | Some pipe => ret pipe
  | None => raise (FileNotFoundError path)
  end.

(** [Path.exists] and [Path.unlink] on an artifact path *)
Definition path_exists (path : string) : M bool :=
  w ← get_world;
  ret (bool_decide (is_Some (w_artifacts w !! path))).

Definition unlink (path : string) : M unit :=
  modify_world (λ w, set_artifacts (delete path (w_artifacts w)) w).

(** [save_model].  [u] is the value [uuid4().hex] yields when it is asked
    for, [now] the text of [datetime.utcnow().isoformat(timespec="seconds")]. *)
Definition save_model_under (flt : io_fault) (pipeline : Pipeline)
    (meta : gmap string pyval) (model_id : option string) (u now : string) : M string :=
  _ensure;;
  index ← _read_index;
  let mid := str_or model_id u in
  let path := model_path mid in
  dump flt pipeline path;;
  let payload :=
    <["created_at" := PStr (now +:+ "Z")]>
      (<["path" := PStr path]> (<["model_id" := PStr mid]> meta)) in
  let index := <[mid := payload]> index in
  _write_index flt index;;
  ret mid.

Definition save_model := save_model_under NoFault.

(** [load_model] *)
Definition load_model (model_id : string) : M (Pipeline * gmap string pyval) :=
  _ensure;;
  index ← _read_index;
  match index !! model_id with
  | None => raise (ModelNotFoundError ("model_id not found: " +:+ model_id))
  | Some meta =>
      pipe ← load (model_path model_id);
      ret (pipe, meta)
  end.

(** [list_models]: [list(idx.values())] *)
Definition list_models : M (list (gmap string pyval)) :=
  _ensure;;
  idx ← _read_index;
  ret ((map_to_list idx).*2).

(** [delete_model] *)
Definition delete_model (model_id : string) : M bool :=
  _ensure;;
  index ← _read_index;
  existed ← (if bool_decide (is_Some (index !! model_id))
             then _write_index NoFault (delete model_id index);; ret true
             else ret false);
  let p := model_path model_id in
  there ← path_exists p;
  if there : bool then unlink p;; ret true else ret existed.

(** ** [src/core/services/dataset]: [dataset_path] and [load_df] *)

Definition dataset_path (dataset_id : string) : string :=
  "data/datasets/" +:+ dataset_id +:+ ".csv".

(** [load_df]: a missing file is [DatasetNotFoundError]; whatever
    [pd.read_csv] raises is caught and turned into [DatasetReadError] with
    the text of the original exception. *)
Definition load_df (dataset_id : string) : M DataFrame :=
  let p := dataset_path dataset_id in
  w ← get_world;
  match w_datasets w !! p with
  | None => raise DatasetNotFoundError
  | Some (CsvFrame df) => ret df
  | Some (CsvBroken detail) => raise (DatasetReadError detail)
  end.

(** ** pandas operations used by the services *)

(** [df.drop(columns=[name])] *)
Definition df_drop (name : string) (df : DataFrame) : DataFrame :=
  Frame (df_nrows df) (filter (λ c, col_name c ≠ name) (df_cols df)).

(** The column a label selects: the first one carrying it. *)
Fixpoint find_col (name : string) (cols : list column) : option column :=
  match cols with
  | [] => None
  | c :: cols' => if decide (col_name c = name) then Some c else find_col name cols'
  end.

(** [df[name]] for a single label *)
Definition df_getitem (name : string) (df : DataFrame) : PyResult (list pyval) :=
  match find_col name (df_cols df) with
  | Some c => Ok (col_values c)
  | None => Raise (KeyError name)
  end.

(** [X[name] = v] for a label that is not a column yet: a new last column
    holding [v] in every row. *)
Definition df_setitem (name : string) (v : pyval) (df : DataFrame) : DataFrame :=
  Frame (df_nrows df) (df_cols df ++ [Column name (replicate (df_nrows df) v)]).

(** [X[names]] for a list of labels: the named columns in the order asked
    for; a label that is no column is a [KeyError]. *)
Fixpoint df_select_cols (names : list string) (cols : list column) : PyResult (list column) :=
  match names with
  | [] => Ok []
  | n :: names' =>
      match find_col n cols with
      | None => Raise (KeyError n)
      | Some c =>
          match df_select_cols names' cols with
          | Ok cs => Ok (c :: cs)
          | Raise e => Raise e
          end
      end
  end.

Definition df_select (names : list string) (df : DataFrame) : PyResult DataFrame :=
  match df_select_cols names (df_cols df) with
  | Ok cs => Ok (Frame (df_nrows df) cs)
  | Raise e => Raise e
  end.

(** The labels of [pd.DataFrame(instances)]: every key of every record,
    once.  pandas lists them by first appearance; a [gmap] keeps no
    insertion order, so the keys of one record come in the map's order. *)
Definition instance_keys (instances : list (gmap string pyval)) : list string :=
  remove_dups (instances ≫= (λ inst, (map_to_list inst).*1)).

(** [pd.DataFrame(instances)] for a list of records: one row per record,
    NaN where a record lacks a key. *)
Definition pd_DataFrame (instances : list (gmap string pyval)) : DataFrame :=
  Frame (length instances)
    ((λ c, Column c ((λ inst, default PNaN (inst !! c)) <$> instances)) <$> instance_keys instances).

(** ** [src/core/services/models/inference_service.py] *)

(** [meta.get("features", [])].  A record written by [train_model] holds a
    list of strings under that key; a missing key gives the empty list.
    Any other shape is outside the annotation [List[str]] and is rendered
    as a [TypeError]. *)
Definition as_str (v : pyval) : option string :=
  match v with PStr s => Some s | _ => None end.

Definition meta_features (meta : gmap string pyval) : PyResult (list string) :=
  match meta !! "features" with
  | None => Ok []
  | Some (PList l) =>
      match mapM as_str l with
      | Some feats => Ok feats
      | None => Raise (TypeError "features")
      end
  | Some _ => Raise (TypeError "features")
  end.

(** The loop [for c in feats: if c not in X.columns: X[c] = None]. *)
Definition add_missing (feats : list string) (X : DataFrame) : DataFrame :=
  foldl (λ X c, if bool_decide (c ∈ df_columns X) then X else df_setitem c PNone X) X feats.

(** Lines 29-34 of [predict]: the frame handed to the pipeline. *)
Definition build_frame (feats : list string) (instances : list (gmap string pyval))
    : PyResult DataFrame :=
  let X := pd_DataFrame instances in
  match feats with
  | [] => Ok X
  | _ :: _ => df_select feats (add_missing feats X)
  end.

Global Instance PyResult_ret : MRet PyResult := @Ok.
Global Instance PyResult_bind : MBind PyResult := λ A B f r,
  match r with
  | Ok a => f a
  | Raise e => Raise e
  end.

(** The body of the [try] block of [predict]. *)
Definition proba_attempt (pipe : Pipeline) (X : DataFrame) : PyResult (option matrix) :=
  let estimator := default ∅ (pipe_named_steps pipe) !! "model" in
  match estimator with
  | None => Ok None
  | Some est =>
      match step_predict_proba est with
      | None => Ok None
      | Some predict_proba =>
          steps ← match pipe_named_steps pipe with
                  | Some steps => Ok steps
                  | None => Raise (AttributeError "named_steps")
                  end;
          prep ← match steps !! "prep" with
                 | Some prep => Ok prep
                 | None => Raise (KeyError "prep")
                 end;
          transform ← match step_transform prep with
                      | Some t => Ok t
                      | None => Raise (AttributeError "transform")
                      end;
          Xt ← transform X;
          proba ← predict_proba Xt;
          Ok (Some proba)
      end
  end.

(** [predict] *)
Definition predict (model_id : string) (instances : list (gmap string pyval))
    : M (list pyval * option matrix) :=
  match instances with
  | [] => raise (NoInstancesError "No instances provided")
  | _ :: _ =>
      pm ← load_model model_id;
      let '(pipe, meta) := pm in
      feats ← lift (meta_features meta);
      X ← lift (build_frame feats instances);
      preds ← lift (pipe_predict pipe X);
      probabilities ← try_except (lift (proba_attempt pipe X)) (λ _, ret None);
      ret (preds, probabilities)
  end.

(** ** [src/core/services/models/training_service.py] *)

(** What training asks from pandas and scikit-learn. *)
Class MLBackend : Type := {
  (** the dtype pandas gave a column, [X[c].dtype] *)
  series_dtype : list pyval → dtype;
  (** [train_test_split(X, y, test_size=, shuffle=, random_state=)] *)
  train_test_split : DataFrame → list pyval → Q → bool → Z →
    PyResult (DataFrame * DataFrame * list pyval * list pyval);
  (** [pipe.fit(X_train, y_train)], giving the fitted pipeline *)
  pipeline_fit : PipelineSpec → DataFrame → list pyval → PyResult Pipeline;
  (** [accuracy_score(y_test, y_pred)] *)
  accuracy_score : list pyval → list pyval → PyResult Q;
}.

Section Training.
Context `{MLBackend}.

Definition is_categorical (c : column) : bool :=
  match series_dtype (col_values c) with
  | DObject | DCategory => true
  | DNumber => false
  end.

(** [_build_preprocessor] *)
Definition _build_preprocessor (X : DataFrame) : Preprocessor * list string :=
  let cat_cols := col_name <$> filter (λ c, is_categorical c = true) (df_cols X) in
  let num_cols := filter (λ c, c ∉ cat_cols) (df_columns X) in
  (ColumnTransformer num_cols cat_cols, df_columns X).

(** The best-effort experiment-tracking block after the save.  The
    tracker is outside the world; what remains is the read of the saved
    record, inside [try ... except Exception: pass]. *)
Definition clearml_best_effort (mid : string) : M unit :=
  try_except (_ ← load_model mid; ret tt) (λ _, ret tt).

(** [train_model] *)
Definition train_model_under (flt : io_fault)
    (dataset_id target_column model_key : string)
    (hyperparams : option (gmap string pyval))
    (test_size : Q) (shuffle : bool) (random_state : Z)
    (model_id : option string) (u now : string)
    : M (string * gmap string pyval) :=
  df ← try_except (load_df dataset_id) raise;
  if bool_decide (target_column ∈ df_columns df) then
    let X := df_drop target_column df in
    y ← lift (df_getitem target_column df);
    let '(preprocessor, feature_order) := _build_preprocessor X in
    model ← build_model model_key (default ∅ hyperparams);
    let pipe := MkPipelineSpec preprocessor model in
    split ← lift (train_test_split X y test_size shuffle random_state);
    let '(X_train, X_test, y_train, y_test) := split in
    fitted ← lift (pipeline_fit pipe X_train y_train);
    y_pred ← lift (pipe_predict fitted X_test);
    acc ← lift (accuracy_score y_test y_pred);
    let metrics : gmap string pyval := {["accuracy" := PFloat acc]} in
    let meta : gmap string pyval :=
      <["model_key" := PStr model_key]> (
      <["dataset_id" := PStr dataset_id]> (
      <["target_column" := PStr target_column]> (
      <["features" := PList (PStr <$> feature_order)]> (
      <["metrics" := PDict metrics]> (
      <["hyperparams" := PDict (default ∅ hyperparams)]> (
      <["test_size" := PFloat test_size]> (
      <["shuffle" := PBool shuffle]> (
      <["random_state" := PInt random_state]> ∅)))))))) in
    mid ← save_model_under flt fitted meta model_id u now;
    clearml_best_effort mid;;
    ret (mid, metrics)
  else raise (TargetColumnNotFoundError target_column).

Definition train_model := train_model_under NoFault.

End Training.

(** ** [src/models/registry.py]: listing *)

(** [ModelRegistry.list_keys]: [sorted(self._specs.keys())].  Python sorts
    strings by code point, which on their UTF-8 bytes is the order
    [String.le]. *)
Definition list_keys : M (list string) :=
  w ← get_world;
  ret (merge_sort String.le ((map_to_list (w_registry w)).*1)).

(** [list_model_classes] *)
Definition list_model_classes : M (list string) := list_keys.

(** ** [src/core/services/dataset/storage.py]: [delete_dataset] *)

(** The dataset directory with the sidecar files next to the data files:
    [dw_sidecars] maps the path of a [.meta.json] file to the original file
    name it records ([None] for a JSON null). *)
Record DataWorld : Type := MkDataWorld {
  dw_world : World;
  dw_sidecars : gmap string (option string);
}.

Definition set_datasets (d : gmap string csv_file) (w : World) : World :=
  MkWorld (w_registry w) d (w_index w) (w_artifacts w).

(** [Path(str(p) + ".meta.json")] *)
Definition sidecar_path (p : string) : string := p +:+ ".meta.json".

(** [storage.delete_dataset]: the data file is unlinked when it exists, and
    only then is the sidecar looked for. *)
Definition storage_delete_dataset (dataset_id : string) (dw : DataWorld) : bool * DataWorld :=
  let p := dataset_path dataset_id in
  if bool_decide (is_Some (w_datasets (dw_world dw) !! p)) then
    let w1 := set_datasets (delete p (w_datasets (dw_world dw))) (dw_world dw) in
    let meta_path := sidecar_path p in
    if bool_decide (is_Some (dw_sidecars dw !! meta_path))
    then (true, MkDataWorld w1 (delete meta_path (dw_sidecars dw)))
    else (true, MkDataWorld w1 (dw_sidecars dw))
  else (false, dw).

(** ** [src/api/main.py]: the REST handlers of the core *)

(** What a handler does with a request: return a body, raise an
    [HTTPException], or let an exception through to the framework. *)
Inductive http_result (A : Type) : Type :=
  | HttpReturn (body : A)
  | HTTPException (status_code : Z) (detail : string)
  | Unhandled (e : exn).
Arguments HttpReturn {A} body.
Arguments HTTPException {A} status_code detail.
Arguments Unhandled {A} e.

(** [src/api/errors.py] *)
Definition ERR_DATASET_NOT_FOUND : string := "Dataset not found".
Definition ERR_FAILED_READ_DATASET (err : string) : string :=
  "Failed to read dataset: " +:+ err.
Definition ERR_MODEL_NOT_FOUND : string := "Model not found".
Definition ERR_NO_INSTANCES : string := "No instances provided".
Definition ERR_PREDICTION_FAILED (err : string) : string :=
  "Prediction failed: " +:+ err.

(** [TargetColumnNotFoundError.__init__]: the text of the exception. *)
Definition target_column_message (column : string) : string :=
  "Target column " +:+ column +:+ " not found".

Record TrainRequest : Type := MkTrainRequest {
  req_model_key : string;
  req_dataset_id : string;
  req_target_column : string;
  req_hyperparams : option (gmap string pyval);
  req_test_size : Q;
  req_shuffle : bool;
  req_random_state : Z;
  req_model_id : option string;
}.

Record TrainResponse : Type := MkTrainResponse {
  resp_model_id : string;
  resp_model_key : string;
  resp_metrics : gmap string pyval;
}.

Record PredictResponse : Type := MkPredictResponse {
  resp_predictions : list pyval;
  resp_probabilities : option matrix;
}.

(** The [except] clauses of the [train] handler, in their order:
    [DatasetNotFoundError], [DatasetReadError],
    [TargetColumnNotFoundError], then any other [ValueError]. *)
Definition train_except {A} (e : exn) : http_result A :=
  match e with
  | DatasetNotFoundError => HTTPException 404 ERR_DATASET_NOT_FOUND
  | DatasetReadError detail => HTTPException 400 (ERR_FAILED_READ_DATASET detail)
  | TargetColumnNotFoundError column => HTTPException 400 (target_column_message column)
  | NoInstancesError msg | ValueError msg => HTTPException 400 msg
  | _ => Unhandled e
  end.

(** The [except] clauses of the [predict] handler, in their order:
    [KeyError], [NoInstancesError], then any other [ValueError]. *)
Definition predict_except {A} (e : exn) : http_result A :=
  match e with
  | KeyError _ | ModelNotFoundError _ => HTTPException 404 ERR_MODEL_NOT_FOUND
  | NoInstancesError _ => HTTPException 400 ERR_NO_INSTANCES
  | ValueError msg | DatasetReadError msg => HTTPException 400 (ERR_PREDICTION_FAILED msg)
  | TargetColumnNotFoundError column =>
      HTTPException 400 (ERR_PREDICTION_FAILED (target_column_message column))
  | _ => Unhandled e
  end.

(** [predict] handler *)
Definition api_predict (model_id : string) (instances : list (gmap string pyval))
    (w : World) : http_result PredictResponse * World :=
  match predict model_id instances w with
  | (Ok (preds, probs), w') => (HttpReturn (MkPredictResponse preds probs), w')
  | (Raise e, w') => (predict_except e, w')
  end.

(** [delete_model] handler; the body carries the deleted id. *)
Definition api_delete_model (model_id : string) (w : World) : http_result string * World :=
  match delete_model model_id w with
  | (Ok true, w') => (HttpReturn model_id, w')
  | (Ok false, w') => (HTTPException 404 ERR_MODEL_NOT_FOUND, w')
  | (Raise e, w') => (Unhandled e, w')
  end.

(** [get_models_classes] handler *)
Definition api_get_models_classes (w : World) : http_result (list string) * World :=
  match list_model_classes w with
  | (Ok ks, w') => (HttpReturn ks, w')
  | (Raise e, w') => (Unhandled e, w')
  end.

Section Api.
Context `{MLBackend}.

(** [train] handler; [hyperparams=(req.hyperparams or {})]. *)
Definition api_train (req : TrainRequest) (u now : string) (w : World)
    : http_result TrainResponse * World :=
  match train_model (req_dataset_id req) (req_target_column req) (req_model_key req)
          (Some (default ∅ (req_hyperparams req))) (req_test_size req)
          (req_shuffle req) (req_random_state req) (req_model_id req) u now w with
  | (Ok (mid, metrics), w') =>
      (HttpReturn (MkTrainResponse mid (req_model_key req) metrics), w')
  | (Raise e, w') => (train_except e, w')
  end.

End Api.

(** ** Reading the store *)

(** The index as [_read_index] sees it: a missing file reads as empty. *)
Definition index_of (w : World) : gmap string (gmap string pyval) :=
  default ∅ (w_index w).

(** The world after [_ensure]. *)
Definition ensure_world (w : World) : World :=
  match w_index w with
  | None => set_index (Some ∅) w
  | Some _ => w
  end.

(** [record["model_id"] == mid] *)
Definition has_model_id (mid : string) (r : gmap string pyval) : bool :=
  match r !! "model_id" with
  | Some (PStr s) => bool_decide (s = mid)
  | _ => false
  end.

(** The record [save_model] files under [mid]. *)
Definition payload_of (meta : gmap string pyval) (mid now : string) : gmap string pyval :=
  <["created_at" := PStr (now +:+ "Z")]>
    (<["path" := PStr (model_path mid)]> (<["model_id" := PStr mid]> meta)).

(** Well-formed indexes: no entry under the empty id, and every record
    carries the id it is filed under. *)
Definition index_wf (idx : gmap string (gmap string pyval)) : Prop :=
  idx !! "" = None ∧ ∀ k r, idx !! k = Some r → r !! "model_id" = Some (PStr k).

Definition store_inv (w : World) : Prop := index_wf (index_of w).

(** Stores reachable from an empty one through the store's own operations.
    [uuid4().hex] is a string of 32 hexadecimal digits, never empty. *)
Inductive reachable : World → Prop :=
  | reach_fresh reg ds : reachable (MkWorld reg ds None ∅)
  | reach_save flt pipeline meta model_id u now w :
      reachable w → String.length u = 32%nat →
      reachable (save_model_under flt pipeline meta model_id u now w).2
  | reach_delete model_id w :
      reachable w → reachable (delete_model model_id w).2
  | reach_load model_id w :
      reachable w → reachable (load_model model_id w).2
  | reach_list w :
      reachable w → reachable (list_models w).2.

(** ** Notions used in the statements *)

(** The column the specification asks for under label [c]: the callers'
    values with NaN where a record lacks [c], or nulls throughout when no
    record has [c]. *)
Definition aligned_column (instances : list (gmap string pyval)) (c : string) : column :=
  Column c (if decide (c ∈ instance_keys instances)
            then (λ inst, default PNaN (inst !! c)) <$> instances
            else replicate (length instances) PNone).

(** The invariant of the alignment loop. *)
Definition frame_ok (instances : list (gmap string pyval)) (X : DataFrame) : Prop :=
  df_nrows X = length instances ∧
  (∀ k, k ∈ instance_keys instances → k ∈ df_columns X) ∧
  (∀ c col, find_col c (df_cols X) = Some col → col = aligned_column instances c).

(** The metadata [train_model] hands to the store. *)
Definition train_meta (model_key dataset_id target_column : string)
    (feature_order : list string) (metrics hyperparams : gmap string pyval)
    (test_size : Q) (shuffle : bool) (random_state : Z) : gmap string pyval :=
  <["model_key" := PStr model_key]> (
  <["dataset_id" := PStr dataset_id]> (
  <["target_column" := PStr target_column]> (
  <["features" := PList (PStr <$> feature_order)]> (
  <["metrics" := PDict metrics]> (
  <["hyperparams" := PDict hyperparams]> (
  <["test_size" := PFloat test_size]> (
  <["shuffle" := PBool shuffle]> (
  <["random_state" := PInt random_state]> ∅)))))))).

(** The ways the first two steps of training fail, with the error each
    one raises. *)
Inductive load_failure (w : World) (dataset_id target_column : string) : exn → Prop :=
  | lf_missing :
      w_datasets w !! dataset_path dataset_id = None →
      load_failure w dataset_id target_column DatasetNotFoundError
  | lf_unreadable detail :
      w_datasets w !! dataset_path dataset_id = Some (CsvBroken detail) →
      load_failure w dataset_id target_column (DatasetReadError detail)
  | lf_no_target df :
      w_datasets w !! dataset_path dataset_id = Some (CsvFrame df) →
      target_column ∉ df_columns df →
      load_failure w dataset_id target_column (TargetColumnNotFoundError target_column).

(** The library steps that reject a training call: the split (an
    out-of-range fraction) or the fit (hyperparameter values the
    estimator refuses). *)
Inductive library_rejects `{MLBackend} (pipe : PipelineSpec) (X : DataFrame) (y : list pyval)
    (test_size : Q) (shuffle : bool) (random_state : Z) : exn → Prop :=
  | rejects_split e :
      train_test_split X y test_size shuffle random_state = Raise e →
      library_rejects pipe X y test_size shuffle random_state e
  | rejects_fit X_train X_test y_train y_test e :
      train_test_split X y test_size shuffle random_state
        = Ok (X_train, X_test, y_train, y_test) →
      pipeline_fit pipe X_train y_train = Raise e →
      library_rejects pipe X y test_size shuffle random_state e.



(** Two worlds with the same index entries, artifacts, datasets and
    registry; they may differ in whether the index file exists. *)
Definition same_content (w w' : World) : Prop :=
  index_of w' = index_of w ∧ w_artifacts w' = w_artifacts w ∧
  w_datasets w' = w_datasets w ∧ w_registry w' = w_registry w.

(** An instance without the fields that are no recorded feature. *)
Definition restrict_instance (feats : list string) (inst : gmap string pyval)
    : gmap string pyval :=
  filter (λ kv : string * pyval, kv.1 ∈ feats) inst.

(** ** Concrete inputs

    A small pipeline, backend and world on which the definitions above can
    be run.  The backend stands in for pandas and scikit-learn: it checks
    the split fraction the way scikit-learn documents it for a float
    [test_size] (strictly between 0 and 1) and otherwise returns fixed
    values. *)

Definition split_out_of_range (t : Q) : bool :=
  Qle_bool t 0 || Qle_bool 1 t.

Definition demo_model_step : Step :=
  MkStep None (Some (λ Xt, Ok ((λ _, [1 # 2; 1 # 2]%Q) <$> Xt))).

Definition demo_prep_step : Step :=
  MkStep (Some (λ X, Ok (replicate (df_nrows X) []))) None.

(** One label per row, and class probabilities. *)
Definition demo_pipeline : Pipeline :=
  MkPipeline (λ X, Ok (replicate (df_nrows X) (PInt 0)))
    (Some (<["prep" := demo_prep_step]> (<["model" := demo_model_step]> ∅))).

(** A pipeline whose preprocessing step raises when asked to transform. *)
Definition demo_pipeline_bad_prep : Pipeline :=
  MkPipeline (λ X, Ok (replicate (df_nrows X) (PInt 0)))
    (Some (<["prep" := MkStep (Some (λ _, Raise (ValueError "could not convert"))) None]>
             (<["model" := demo_model_step]> ∅))).

Definition demo_backend : MLBackend := {|
  series_dtype vs :=
    if forallb (λ v, match v with PStr _ | PNone => false | _ => true end) vs
    then DNumber else DObject;
  train_test_split X y t sh rs :=
    if split_out_of_range t
    then Raise (ValueError "test_size out of range")
    else Ok (X, X, y, y);
  pipeline_fit ps X y := Ok demo_pipeline;
  accuracy_score yt yp := Ok 1%Q;
|}.

Definition demo_frame : DataFrame :=
  Frame 2 [Column "age" [PInt 30; PInt 41];
           Column "city" [PStr "X"; PStr "Y"];
           Column "target" [PInt 0; PInt 1]].

Definition demo_registry : gmap string ModelSpec :=
  w_registry (registry_init (MkWorld ∅ ∅ None ∅)).2.

(** A process after start-up: both models registered, one readable and one
    broken dataset on disk, no model store yet. *)
Definition demo_world : World :=
  MkWorld demo_registry
    (<[dataset_path "ds1" := CsvFrame demo_frame]>
       (<[dataset_path "bad" := CsvBroken "boom"]> ∅))
    None ∅.

Definition demo_uuid : string := "0123456789abcdef0123456789abcdef".
Definition demo_now : string := "2024-01-01T00:00:00".

Definition demo_params : gmap string pyval :=
  <["C" := PFloat 2]> (<["bogus_param" := PInt 1]> ∅).

(** [demo_world] after one training run on ["ds1"]. *)
Definition demo_trained : World :=
  (train_model (H := demo_backend) "ds1" "target" "logistic_regression"
     (Some demo_params) (1 # 5) true 42 None demo_uuid demo_now demo_world).2.

Definition demo_instances : list (gmap string pyval) :=
  [ {["age" := PInt 3]}; <["zip" := PInt 3]> {["city" := PStr "u"]} ].


(** A store holding one model whose preprocessing step cannot transform. *)
Definition demo_trained_bad_prep : World :=
  (save_model demo_pipeline_bad_prep
     {["features" := PList [PStr "age"; PStr "city"]]} None demo_uuid demo_now demo_world).2.

(** [demo_world] after one direct save. *)
Definition demo_saved : World :=
  (save_model demo_pipeline {["features" := PList [PStr "age"]]} None
     demo_uuid demo_now demo_world).2.

(** A pipeline whose [predict] raises a [KeyError]. *)
Definition demo_pipeline_raising : Pipeline :=
  MkPipeline (λ _, Raise (KeyError "city")) None.

Definition demo_saved_raising : World :=
  (save_model demo_pipeline_raising {["features" := PList [PStr "age"]]} None
     demo_uuid demo_now demo_world).2.

(** An index entry whose artifact file is missing. *)
Definition demo_corrupt : World :=
  MkWorld demo_registry ∅ (Some {["m1" := {["model_id" := PStr "m1"]}]}) ∅.

Definition demo_request (dataset_id model_key : string) (test_size : Q) : TrainRequest :=
  MkTrainRequest model_key dataset_id "target" None test_size true 42 None.

(** The dataset directory of [demo_world] with a sidecar for ["ds1"]. *)
Definition demo_data_world : DataWorld :=
  MkDataWorld demo_world {[sidecar_path (dataset_path "ds1") := Some "iris.csv"]}.

Ltac py_unfold :=
  unfold mbind, mret, M_bind, M_ret, PyResult_bind, PyResult_ret,
    bind, ret, raise, lift, try_except, get_world, modify_world in *.

(** ** Unfolding equations of the store operations *)

Lemma index_of_ensure w : index_of (ensure_world w) = index_of w.
Proof. unfold index_of, ensure_world. by destruct w as [r d [i|] a]. Qed.

Lemma ensure_world_idem w : ensure_world (ensure_world w) = ensure_world w.
Proof. unfold ensure_world. destruct w as [r d [i|] a]; reflexivity. Qed.

Lemma ensure_world_index w : w_index (ensure_world w) = Some (index_of w).
Proof. unfold ensure_world, index_of. by destruct w as [r d [i|] a]. Qed.

Lemma ensure_world_artifacts w : w_artifacts (ensure_world w) = w_artifacts w.
Proof. unfold ensure_world. by destruct w as [r d [i|] a]. Qed.

Lemma read_index_eq w : _read_index w = (Ok (index_of w), ensure_world w).
Proof.
  unfold _read_index, _ensure. by destruct w as [r d [i|] a].
Qed.

Lemma save_model_under_eq flt pipeline meta model_id u now w :
  save_model_under flt pipeline meta model_id u now w =
  let mid := str_or model_id u in
  match flt with
  | NoFault =>
      (Ok mid,
       MkWorld (w_registry w) (w_datasets w)
         (Some (<[mid := payload_of meta mid now]> (index_of w)))
         (<[model_path mid := pipeline]> (w_artifacts w)))
  | FaultDump e => (Raise e, ensure_world w)
  | FaultWriteIndex e =>
      (Raise e,
       MkWorld (w_registry w) (w_datasets w) (Some (index_of w))
         (<[model_path mid := pipeline]> (w_artifacts w)))
  end.
Proof.
  unfold save_model_under, _read_index, _ensure, dump, _write_index, payload_of.
  destruct w as [r d [i|] a]; destruct flt; reflexivity.
Qed.

Lemma load_model_eq model_id w :
  load_model model_id w =
  match index_of w !! model_id with
  | None => (Raise (ModelNotFoundError ("model_id not found: " +:+ model_id)), ensure_world w)
  | Some meta =>
      match w_artifacts w !! model_path model_id with
      | Some pipe => (Ok (pipe, meta), ensure_world w)
      | None => (Raise (FileNotFoundError (model_path model_id)), ensure_world w)
      end
  end.
Proof.
  unfold load_model, _read_index, _ensure, load, index_of, ensure_world. py_unfold.
  destruct w as [r d [i|] a]; simpl.
  - destruct (i !! model_id); [|done]. cbn. by destruct (a !! model_path model_id).
  - by rewrite lookup_empty.
Qed.

Lemma list_models_eq w :
  list_models w = (Ok ((map_to_list (index_of w)).*2), ensure_world w).
Proof.
  unfold list_models, _read_index, _ensure, index_of, ensure_world. py_unfold.
  by destruct w as [r d [i|] a].
Qed.

Lemma delete_model_eq model_id w :
  delete_model model_id w =
  (Ok (bool_decide (is_Some (index_of w !! model_id)
                    ∨ is_Some (w_artifacts w !! model_path model_id))),
   MkWorld (w_registry w) (w_datasets w)
     (Some (delete model_id (index_of w)))
     (delete (model_path model_id) (w_artifacts w))).
Proof.
  unfold delete_model, _read_index, _ensure, _write_index, path_exists, unlink, index_of.
  py_unfold.
  destruct w as [r d oi a]; cbn.
  destruct oi as [i|]; cbn.
  - destruct (i !! model_id) as [m|] eqn:Hi; cbn;
      destruct (a !! model_path model_id) as [p|] eqn:Ha; cbn;
      unfold set_index, set_artifacts; cbn;
      rewrite ?(delete_id i) by done; rewrite ?(delete_id a) by done;
      reflexivity.
  - rewrite lookup_empty; cbn. rewrite delete_empty.
    destruct (a !! model_path model_id) as [p|] eqn:Ha; cbn;
      unfold set_index, set_artifacts; cbn;
      rewrite ?(delete_id a) by done; reflexivity.
Qed.

(** ** The index invariant *)

Lemma str_or_nonempty model_id u : u ≠ "" → str_or model_id u ≠ "".
Proof.
  intros Hu. unfold str_or. destruct model_id as [s|]; [|done].
  by case_bool_decide.
Qed.

Lemma str_or_supplied m u : m ≠ "" → str_or (Some m) u = m.
Proof. intros Hm. unfold str_or. by rewrite bool_decide_eq_false_2. Qed.

Lemma payload_model_id meta mid now :
  payload_of meta mid now !! "model_id" = Some (PStr mid).
Proof.
  unfold payload_of.
  rewrite lookup_insert_ne by done. rewrite lookup_insert_ne by done.
  by rewrite lookup_insert_eq.
Qed.

Lemma payload_keeps meta mid now k :
  k ≠ "model_id" → k ≠ "path" → k ≠ "created_at" →
  payload_of meta mid now !! k = meta !! k.
Proof.
  intros H1 H2 H3. unfold payload_of.
  by rewrite !lookup_insert_ne by done.
Qed.

Lemma index_wf_empty : index_wf ∅.
Proof. split; [done|]. intros k r Hk. by rewrite lookup_empty in Hk. Qed.

Lemma index_wf_insert idx meta mid now :
  index_wf idx → mid ≠ "" → index_wf (<[mid := payload_of meta mid now]> idx).
Proof.
  intros [Hne Hid] Hmid. split.
  - by rewrite lookup_insert_ne.
  - intros k r. rewrite lookup_insert. case_decide as Hk.
    + intros [= <-]. subst k. apply payload_model_id.
    + apply Hid.
Qed.

Lemma index_wf_delete idx mid : index_wf idx → index_wf (delete mid idx).
Proof.
  intros [Hne Hid]. split.
  - rewrite lookup_delete. by case_decide.
  - intros k r. rewrite lookup_delete. case_decide; [done|]. apply Hid.
Qed.

Lemma uuid_hex_nonempty u : String.length u = 32%nat → u ≠ "".
Proof. by intros Hlen ->. Qed.

Lemma store_inv_save flt pipeline meta model_id u now w :
  u ≠ "" → store_inv w →
  store_inv (save_model_under flt pipeline meta model_id u now w).2.
Proof.
  intros Hu Hinv. rewrite save_model_under_eq. unfold store_inv in *.
  destruct flt; cbn.
  - apply index_wf_insert; [done|]. by apply str_or_nonempty.
  - by rewrite index_of_ensure.
  - done.
Qed.

Lemma store_inv_delete model_id w :
  store_inv w → store_inv (delete_model model_id w).2.
Proof.
  intros Hinv. rewrite delete_model_eq. unfold store_inv in *. cbn.
  by apply index_wf_delete.
Qed.

Lemma store_inv_ensure w : store_inv w → store_inv (ensure_world w).
Proof. unfold store_inv. by rewrite index_of_ensure. Qed.

(** X5.  Every store built from nothing by the store's own operations
    (saves, failing or not, deletes, loads, listings) is well formed: no
    entry is filed under the empty id, and every record carries the id it
    is filed under. *)
Lemma reachable_store_inv w : reachable w → store_inv w.
Proof.
  induction 1 as [reg ds|flt pipeline meta model_id u now w _ IH Hu
                 |model_id w _ IH|model_id w _ IH|w _ IH].
  - apply index_wf_empty.
  - apply store_inv_save; [|done]. by apply uuid_hex_nonempty.
  - by apply store_inv_delete.
  - rewrite load_model_eq.
    destruct (index_of w !! model_id); [destruct (w_artifacts w !! _)|];
      by apply store_inv_ensure.
  - rewrite list_models_eq. by apply store_inv_ensure.
Qed.

Lemma filter_none {A} (P : A → Prop) `{∀ x, Decision (P x)} (l : list A) :
  (∀ x, x ∈ l → ¬ P x) → filter P l = [].
Proof.
  induction l as [|a l IH]; intros Hl; [done|].
  rewrite filter_cons_False by (apply Hl; left).
  apply IH. intros x Hx. apply Hl. by right.
Qed.

(** In a well-formed index the records carrying an id are exactly the
    record filed under it. *)
Lemma records_with_id idx mid r :
  index_wf idx → idx !! mid = Some r →
  filter (λ x, has_model_id mid x = true) (map_to_list idx).*2 = [r].
Proof.
  intros [_ Hid] Hr.
  assert (Hrest : filter (λ x, has_model_id mid x = true)
                    (map_to_list (delete mid idx)).*2 = []).
  { apply filter_none. intros x Hx.
    apply list_elem_of_fmap in Hx as [[k x'] [-> Hkx]].
    apply elem_of_map_to_list in Hkx.
    rewrite lookup_delete in Hkx. case_decide as Hk; [done|].
    apply Hid in Hkx. unfold has_model_id. cbn. rewrite Hkx.
    rewrite bool_decide_eq_false_2; [done|]. congruence. }
  assert (Hperm : map_to_list idx ≡ₚ (mid, r) :: map_to_list (delete mid idx)).
  { rewrite <- (insert_delete_id idx mid r) at 1 by done.
    apply map_to_list_insert. apply lookup_delete_eq. }
  apply Permutation_singleton_r.
  rewrite Hperm, fmap_cons.
  rewrite filter_cons_True.
  - by rewrite Hrest.
  - cbn [snd]. unfold has_model_id. rewrite (Hid _ _ Hr).
    by rewrite bool_decide_eq_true_2.
Qed.

(** * Properties *)

(** ** Registry *)

Lemma build_params_lookup (spec : ModelSpec) (params : option (gmap string pyval)) name :
  est_params (ModelSpecM.build spec params) !! name =
  match defaults spec !! name with
  | Some d => Some (default d (default ∅ params !! name))
  | None => None
  end.
Proof.
  unfold ModelSpecM.build; cbn [est_params].
  set (ps := default ∅ params).
  rewrite lookup_union.
  destruct (defaults spec !! name) as [d|] eqn:Hd.
  - destruct (ps !! name) as [v|] eqn:Hv; cbn.
    + rewrite (proj2 (map_lookup_filter_Some _ ps name v)); [done|].
      split; [done|]. cbn. apply elem_of_dom. eauto.
    + rewrite (proj2 (map_lookup_filter_None _ ps name)); [done|]. by left.
  - rewrite (proj2 (map_lookup_filter_None _ ps name)); [done|].
    right. intros v _. cbn. rewrite elem_of_dom, Hd. by intros [? ?].
Qed.

(** C2.  For a registered key, [build] returns an estimator of the spec's
    class whose keyword arguments are exactly the spec's default keys, each
    holding the caller's value when the caller supplied that key and the
    default otherwise; keys outside the defaults never reach the
    constructor; the registry, and with it the defaults, is as before. *)
Theorem registry_build_filters_to_defaults
    (w : World) (k : string) (spec : ModelSpec) (params : option (gmap string pyval)) :
  w_registry w !! k = Some spec →
  ∃ est,
    ModelRegistry.build k params w = (Ok est, w) ∧
    est_cls est = cls spec ∧
    dom (est_params est) = dom (defaults spec) ∧
    (∀ name d, defaults spec !! name = Some d →
       est_params est !! name = Some (default d (default ∅ params !! name))) ∧
    (∀ name, defaults spec !! name = None → est_params est !! name = None) ∧
    get_default_hyperparams k w = (Ok (defaults spec), w).
Proof.
  intros Hk. exists (ModelSpecM.build spec params).
  split; [|split; [|split; [|split; [|split]]]].
  - unfold ModelRegistry.build, ModelRegistry.get. py_unfold. by rewrite Hk.
  - reflexivity.
  - apply set_eq. intros name. rewrite !elem_of_dom, build_params_lookup.
    destruct (defaults spec !! name); split; intros [? ?]; eauto; done.
  - intros name d Hd. by rewrite build_params_lookup, Hd.
  - intros name Hd. by rewrite build_params_lookup, Hd.
  - unfold get_default_hyperparams, ModelRegistry.defaults, ModelRegistry.get.
    py_unfold. by rewrite Hk.
Qed.

(** The example of the specification: [C] is overridden, [bogus_param] is
    dropped, the other defaults stay. *)
Lemma registry_build_filters_to_defaults_witness :
  w_registry demo_world !! "logistic_regression" = Some logistic_regression_spec ∧
  ∃ est,
    ModelRegistry.build "logistic_regression" (Some demo_params) demo_world
      = (Ok est, demo_world) ∧
    est_params est !! "C" = Some (PFloat 2) ∧
    est_params est !! "max_iter" = Some (PInt 200) ∧
    est_params est !! "bogus_param" = None.
Proof.
  assert (Hk : w_registry demo_world !! "logistic_regression"
               = Some logistic_regression_spec) by reflexivity.
  split; [exact Hk|].
  destruct (registry_build_filters_to_defaults demo_world "logistic_regression"
              logistic_regression_spec (Some demo_params) Hk)
    as (est & Hb & _ & _ & Hin & Hout & _).
  exists est. split; [exact Hb|]. split; [|split].
  - exact (Hin "C" (PFloat 1) eq_refl).
  - exact (Hin "max_iter" (PInt 200) eq_refl).
  - exact (Hout "bogus_param" eq_refl).
Defined.

(** ** Store *)

(** The ids carried by the records of a well-formed index are pairwise
    distinct. *)
Lemma record_ids_NoDup idx :
  index_wf idx → NoDup ((λ r : gmap string pyval, r !! "model_id") <$> (map_to_list idx).*2).
Proof.
  intros [_ Hid].
  assert (Heq : (λ r : gmap string pyval, r !! "model_id") <$> (map_to_list idx).*2
                = (λ k, Some (PStr k)) <$> (map_to_list idx).*1).
  { rewrite <- !list_fmap_compose. apply Forall_fmap_ext_1, Forall_forall.
    intros [k r] Hkr. cbn. apply (Hid k r). by apply elem_of_map_to_list. }
  rewrite Heq. apply NoDup_fmap_2; [|apply NoDup_fst_map_to_list].
  intros k1 k2 ?. congruence.
Qed.

(** C4.  A save that meets no disk fault returns the id it files the
    record under: the drawn [uuid4] value when no id is supplied, the
    supplied id when that id already has an entry.  The index afterwards
    is the old one with that single entry inserted or overwritten (an
    existing id gains no second entry: the set of ids is unchanged), the
    artifact at the id's path is the new pipeline, and [list_models]
    yields exactly one record carrying the id, all record ids being
    pairwise distinct. *)
Theorem save_model_keeps_ids_unique
    (pipeline : Pipeline) (meta : gmap string pyval) (model_id : option string)
    (u now : string) (w : World) :
  u ≠ "" → store_inv w →
  ∃ mid w',
    save_model pipeline meta model_id u now w = (Ok mid, w') ∧
    (model_id = None → mid = u) ∧
    (∀ m, model_id = Some m → is_Some (index_of w !! m) →
       mid = m ∧ dom (index_of w') = dom (index_of w)) ∧
    index_of w' = <[mid := payload_of meta mid now]> (index_of w) ∧
    w_artifacts w' = <[model_path mid := pipeline]> (w_artifacts w) ∧
    store_inv w' ∧
    ∃ recs,
      list_models w' = (Ok recs, w') ∧
      filter (λ r, has_model_id mid r = true) recs = [payload_of meta mid now] ∧
      NoDup ((λ r : gmap string pyval, r !! "model_id") <$> recs).
Proof.
  intros Hu Hinv.
  set (mid := str_or model_id u).
  set (w' := MkWorld (w_registry w) (w_datasets w)
               (Some (<[mid := payload_of meta mid now]> (index_of w)))
               (<[model_path mid := pipeline]> (w_artifacts w))).
  assert (Hwf' : index_wf (index_of w')).
  { apply index_wf_insert; [done|]. by apply str_or_nonempty. }
  exists mid, w'. split; [|split; [|split; [|split; [|split; [|split]]]]].
  - unfold save_model. by rewrite save_model_under_eq.
  - intros ->. reflexivity.
  - intros m -> Hm.
    assert (Hne : m ≠ "").
    { intros ->. destruct Hinv as [Hempty _]. rewrite Hempty in Hm. by destruct Hm. }
    assert (Hmid : mid = m) by (by apply str_or_supplied).
    split; [done|].
    change (index_of w') with (<[mid := payload_of meta mid now]> (index_of w)).
    rewrite Hmid. by apply dom_insert_lookup_L.
  - reflexivity.
  - reflexivity.
  - exact Hwf'.
  - exists ((map_to_list (index_of w')).*2). split; [|split].
    + by rewrite list_models_eq.
    + apply records_with_id; [done|].
      change (index_of w') with (<[mid := payload_of meta mid now]> (index_of w)).
      apply lookup_insert_eq.
    + by apply record_ids_NoDup.
Qed.

(** Retraining onto the id of [demo_trained] keeps a single entry. *)
Lemma save_model_keeps_ids_unique_witness :
  "ffffffffffffffffffffffffffffffff" ≠ "" ∧ store_inv demo_trained ∧
  ∃ mid w',
    save_model demo_pipeline ∅ (Some demo_uuid) "ffffffffffffffffffffffffffffffff"
      demo_now demo_trained = (Ok mid, w') ∧
    mid = demo_uuid ∧
    dom (index_of w') = dom (index_of demo_trained) ∧
    ∃ recs r,
      list_models w' = (Ok recs, w') ∧
      filter (λ r, has_model_id mid r = true) recs = [r].
Proof.
  assert (Hu : "ffffffffffffffffffffffffffffffff" ≠ "") by done.
  assert (Hinv : store_inv demo_trained).
  { split; [reflexivity|]. intros k r Hk.
    change (index_of demo_trained) with
      (<[demo_uuid := payload_of
           (default ∅ (index_of demo_trained !! demo_uuid) ) demo_uuid demo_now]>
         (∅ : gmap string (gmap string pyval))) in Hk.
    apply lookup_insert_Some in Hk as [[<- <-]|[_ Hk]]; [|by rewrite lookup_empty in Hk].
    apply payload_model_id. }
  split; [done|]. split; [exact Hinv|].
  destruct (save_model_keeps_ids_unique demo_pipeline ∅ (Some demo_uuid)
              "ffffffffffffffffffffffffffffffff" demo_now demo_trained Hu Hinv)
    as (mid & w' & Hsave & _ & Hex & Hidx & _ & _ & recs & Hlist & Hone & _).
  destruct (Hex demo_uuid eq_refl) as [Hmid Hdom].
  { exists (payload_of (default ∅ (index_of demo_trained !! demo_uuid)) demo_uuid demo_now).
    reflexivity. }
  exists mid, w'. split; [exact Hsave|]. split; [exact Hmid|]. split; [exact Hdom|].
  exists recs, (payload_of ∅ mid demo_now). split; [exact Hlist|exact Hone].
Defined.

(** C5.  [delete_model] reports [true] exactly when the id had an index
    entry or an artifact file (or both) before the call, and removes
    whichever exists, leaving every other entry and file alone.  Deleting
    the same id again reports [false], and loading it fails with
    [ModelNotFoundError]. *)
Theorem delete_model_reports_either (model_id : string) (w : World) :
  ∃ existed w',
    delete_model model_id w = (Ok existed, w') ∧
    (existed = true ↔
       is_Some (index_of w !! model_id) ∨ is_Some (w_artifacts w !! model_path model_id)) ∧
    index_of w' = delete model_id (index_of w) ∧
    w_artifacts w' = delete (model_path model_id) (w_artifacts w) ∧
    delete_model model_id w' = (Ok false, w') ∧
    load_model model_id w' =
      (Raise (ModelNotFoundError ("model_id not found: " +:+ model_id)), w').
Proof.
  eexists _, _. split; [apply delete_model_eq|].
  split; [apply bool_decide_eq_true|].
  split; [reflexivity|]. split; [reflexivity|].
  split.
  - rewrite delete_model_eq. cbn [w_registry w_datasets w_artifacts].
    change (index_of (MkWorld ?r ?d (Some ?i) ?a)) with i.
    rewrite !lookup_delete_eq, !delete_delete_eq.
    rewrite bool_decide_eq_false_2; [done|]. by intros [[? ?]|[? ?]].
  - rewrite load_model_eq.
    change (index_of (MkWorld ?r ?d (Some ?i) ?a)) with i.
    by rewrite lookup_delete_eq.
Qed.



(** ** Inference *)

Lemma find_col_name c cols col : find_col c cols = Some col → col_name col = c.
Proof.
  induction cols as [|x cols IH]; cbn; [done|].
  case_decide; [by intros [= <-]|done].
Qed.

Lemma find_col_is_Some c cols : c ∈ col_name <$> cols → is_Some (find_col c cols).
Proof.
  induction cols as [|x cols IH]; cbn; [by intros ?%elem_of_nil|].
  intros [->|Hc]%elem_of_cons; case_decide; eauto; done.
Qed.

Lemma find_col_app c l1 l2 :
  find_col c (l1 ++ l2) =
  match find_col c l1 with Some col => Some col | None => find_col c l2 end.
Proof. induction l1 as [|x l1 IH]; cbn; [done|]. by case_decide. Qed.

Lemma find_col_not_in c cols : c ∉ col_name <$> cols → find_col c cols = None.
Proof.
  intros Hc. destruct (find_col c cols) as [col|] eqn:Hf; [|done].
  exfalso. apply Hc. clear Hc.
  induction cols as [|x cols IH]; cbn in *; [done|].
  apply elem_of_cons. case_decide as Hx; [by left|right; by apply IH].
Qed.

Lemma find_col_fmap (mk : string → column) keys c :
  (∀ k, col_name (mk k) = k) → c ∈ keys → find_col c (mk <$> keys) = Some (mk c).
Proof.
  intros Hmk. induction keys as [|k keys IH]; cbn; [by intros ?%elem_of_nil|].
  intros Hc. rewrite Hmk. case_decide as Hk; [by rewrite Hk|].
  apply IH. apply elem_of_cons in Hc as [->|Hc]; done.
Qed.

Lemma instance_keys_lookup instances inst c x :
  inst ∈ instances → inst !! c = Some x → c ∈ instance_keys instances.
Proof.
  intros Hin Hc. unfold instance_keys.
  apply elem_of_remove_dups, list_elem_of_bind. exists inst. split; [|done].
  apply list_elem_of_fmap. exists (c, x). split; [done|].
  by apply elem_of_map_to_list.
Qed.


Lemma frame_ok_pd_DataFrame instances : frame_ok instances (pd_DataFrame instances).
Proof.
  split; [done|]. split.
  - intros k Hk. unfold df_columns, pd_DataFrame; cbn.
    rewrite <- list_fmap_compose. cbn. by rewrite list_fmap_id.
  - intros c col Hf. pose proof (find_col_name _ _ _ Hf) as Hname.
    unfold pd_DataFrame in Hf; cbn in Hf.
    destruct (decide (c ∈ instance_keys instances)) as [Hc|Hc].
    + rewrite find_col_fmap in Hf by done. injection Hf as <-.
      unfold aligned_column. by rewrite decide_True.
    + rewrite find_col_not_in in Hf; [done|].
      rewrite <- list_fmap_compose. cbn. by rewrite list_fmap_id.
Qed.

Lemma frame_ok_step instances X c :
  frame_ok instances X →
  frame_ok instances
    (if bool_decide (c ∈ df_columns X) then X else df_setitem c PNone X).
Proof.
  intros (Hn & Hkeys & Hcols). case_bool_decide as Hc; [done|].
  split; [done|]. split.
  - intros k Hk. unfold df_columns, df_setitem; cbn.
    rewrite fmap_app. apply elem_of_app. left. by apply Hkeys.
  - intros c' col. unfold df_setitem; cbn. rewrite find_col_app.
    destruct (find_col c' (df_cols X)) as [col0|] eqn:Hf.
    + intros [= <-]. by apply Hcols.
    + cbn. case_decide as Hcc; [|done]. intros [= <-]. cbn in Hcc. subst c'.
      unfold aligned_column. rewrite decide_False; [by rewrite Hn|].
      intros Hk. by apply Hc, Hkeys.
Qed.

Lemma add_missing_ok instances feats X :
  frame_ok instances X →
  frame_ok instances (add_missing feats X) ∧
  (∀ c, c ∈ df_columns X ∨ c ∈ feats → c ∈ df_columns (add_missing feats X)).
Proof.
  unfold add_missing. revert X.
  induction feats as [|f feats IH]; intros X HX; cbn.
  - split; [done|]. intros c [?|?%elem_of_nil]; done.
  - destruct (IH _ (frame_ok_step instances X f HX)) as [Hok Hin].
    split; [done|]. intros c Hc. apply Hin.
    case_bool_decide as Hf.
    + destruct Hc as [?|[->|?]%elem_of_cons]; auto.
    + unfold df_columns, df_setitem; cbn. rewrite fmap_app, elem_of_app. cbn.
      destruct Hc as [?|[->|?]%elem_of_cons]; auto.
      left. right. by left.
Qed.

Lemma df_select_cols_ok instances feats cols :
  (∀ c col, find_col c cols = Some col → col = aligned_column instances c) →
  (∀ c, c ∈ feats → c ∈ col_name <$> cols) →
  df_select_cols feats cols = Ok (aligned_column instances <$> feats).
Proof.
  intros Hcols. induction feats as [|f feats IH]; intros Hin; cbn; [done|].
  destruct (find_col_is_Some f cols) as [col Hf]; [apply Hin; by left|].
  rewrite Hf, IH by (intros c Hc; apply Hin; by right).
  by rewrite (Hcols _ _ Hf).
Qed.

(** For a non-empty feature order, the loop and the selection of [predict]
    build exactly the aligned columns, in the recorded order. *)
Lemma build_frame_aligned feats instances :
  feats ≠ [] →
  build_frame feats instances
  = Ok (Frame (length instances) (aligned_column instances <$> feats)).
Proof.
  intros Hne. unfold build_frame. destruct feats as [|f feats]; [done|].
  destruct (add_missing_ok instances (f :: feats) (pd_DataFrame instances)
              (frame_ok_pd_DataFrame instances)) as [(Hn & _ & Hcols) Hin].
  unfold df_select.
  rewrite (df_select_cols_ok instances (f :: feats)); [by rewrite Hn|done|].
  intros c Hc. apply Hin. by right.
Qed.

Lemma predict_eq model_id inst rest w :
  predict model_id (inst :: rest) w =
  match load_model model_id w with
  | (Raise e, w1) => (Raise e, w1)
  | (Ok (pipe, meta), w1) =>
      match meta_features meta with
      | Raise e => (Raise e, w1)
      | Ok feats =>
          match build_frame feats (inst :: rest) with
          | Raise e => (Raise e, w1)
          | Ok X =>
              match pipe_predict pipe X with
              | Raise e => (Raise e, w1)
              | Ok preds =>
                  (Ok (preds, match proba_attempt pipe X with
                              | Ok p => p
                              | Raise _ => None
                              end), w1)
              end
          end
      end
  end.
Proof.
  unfold predict. py_unfold.
  destruct (load_model model_id w) as [[[pipe meta]|e] w1]; [|done].
  destruct (meta_features meta) as [feats|e]; [|done].
  destruct (build_frame feats (inst :: rest)) as [X|e]; [|done].
  destruct (pipe_predict pipe X) as [preds|e]; [|done].
  by destruct (proba_attempt pipe X).
Qed.

(** An estimator step without [predict_proba], or no step called
    ["model"] at all: the attempt yields no probabilities and no error. *)
Lemma proba_attempt_unsupported pipe X :
  match default ∅ (pipe_named_steps pipe) !! "model" with
  | Some est => step_predict_proba est = None
  | None => True
  end →
  proba_attempt pipe X = Ok None.
Proof.
  unfold proba_attempt.
  destruct (default ∅ (pipe_named_steps pipe) !! "model") as [est|]; [|done].
  by intros ->.
Qed.




(** C6.  With no instances [predict] raises [NoInstancesError] without
    touching the store; with instances and an id the index does not hold
    it raises the store's [ModelNotFoundError], having done no more than
    make sure the index file exists.  No predictions come back. *)
Theorem predict_rejects_early
    (model_id : string) (instances : list (gmap string pyval)) (w : World) :
  instances = [] ∨ index_of w !! model_id = None →
  ∃ e w',
    predict model_id instances w = (Raise e, w') ∧
    match instances with
    | [] => e = NoInstancesError "No instances provided" ∧ w' = w
    | _ :: _ =>
        e = ModelNotFoundError ("model_id not found: " +:+ model_id) ∧
        w' = ensure_world w
    end.
Proof.
  intros Hcase. destruct instances as [|inst rest].
  - eexists _, _. split; [reflexivity|]. done.
  - destruct Hcase as [?|Hidx]; [done|].
    eexists _, _. split; [|done].
    by rewrite predict_eq, load_model_eq, Hidx.
Qed.

Lemma predict_rejects_early_witness :
  (∃ e w', predict demo_uuid [] demo_trained = (Raise e, w') ∧
           e = NoInstancesError "No instances provided" ∧ w' = demo_trained) ∧
  (∃ e w', predict "never-trained" demo_instances demo_trained = (Raise e, w') ∧
           e = ModelNotFoundError "model_id not found: never-trained").
Proof.
  split.
  - destruct (predict_rejects_early demo_uuid [] demo_trained) as (e & w' & Hp & He & Hw).
    + by left.
    + exists e, w'. done.
  - destruct (predict_rejects_early "never-trained" demo_instances demo_trained)
      as (e & w' & Hp & He & Hw).
    + right. reflexivity.
    + exists e, w'. done.
Defined.

(** C8.  Once the pipeline has produced its predictions, [predict]
    returns them whatever happens in the probability block: the
    probabilities are those of the block when it succeeds, and absent when
    the estimator has no [predict_proba] or any step of the block raises. *)
Theorem predict_probabilities_best_effort
    (model_id : string) (instances : list (gmap string pyval)) (w w1 : World)
    (pipe : Pipeline) (meta : gmap string pyval) (feats : list string)
    (X : DataFrame) (preds : list pyval) :
  instances ≠ [] →
  load_model model_id w = (Ok (pipe, meta), w1) →
  meta_features meta = Ok feats →
  build_frame feats instances = Ok X →
  pipe_predict pipe X = Ok preds →
  ∃ probs,
    predict model_id instances w = (Ok (preds, probs), w1) ∧
    (∀ e, proba_attempt pipe X = Raise e → probs = None) ∧
    (∀ p, proba_attempt pipe X = Ok p → probs = p) ∧
    (match default ∅ (pipe_named_steps pipe) !! "model" with
     | Some est => step_predict_proba est = None
     | None => True
     end → probs = None).
Proof.
  intros Hinst Hload Hmeta HX Hpreds.
  destruct instances as [|inst rest]; [done|].
  eexists. split; [by rewrite predict_eq, Hload, Hmeta, HX, Hpreds|].
  split; [|split].
  - by intros e ->.
  - by intros p ->.
  - intros Hno. by rewrite proba_attempt_unsupported.
Qed.

(** A stored pipeline whose preprocessing step raises in [transform]: the
    predictions come back, the probabilities are absent. *)
Lemma predict_probabilities_best_effort_witness :
  ∃ X,
    build_frame ["age"; "city"] demo_instances = Ok X ∧
    proba_attempt demo_pipeline_bad_prep X = Raise (ValueError "could not convert") ∧
    predict demo_uuid demo_instances demo_trained_bad_prep
      = (Ok ([PInt 0; PInt 0], None), demo_trained_bad_prep).
Proof.
  exists (Frame 2 [Column "age" [PInt 3; PNaN]; Column "city" [PNaN; PStr "u"]]).
  split; [vm_compute; reflexivity|]. split; [vm_compute; reflexivity|].
  destruct (predict_probabilities_best_effort demo_uuid demo_instances
              demo_trained_bad_prep demo_trained_bad_prep demo_pipeline_bad_prep
              (payload_of {["features" := PList [PStr "age"; PStr "city"]]}
                 demo_uuid demo_now)
              ["age"; "city"]
              (Frame 2 [Column "age" [PInt 3; PNaN]; Column "city" [PNaN; PStr "u"]])
              [PInt 0; PInt 0])
    as (probs & Hp & Hraise & _ & _).
  - done.
  - vm_compute; reflexivity.
  - vm_compute; reflexivity.
  - vm_compute; reflexivity.
  - vm_compute; reflexivity.
  - rewrite Hp. by rewrite (Hraise (ValueError "could not convert") eq_refl).
Defined.

(** ** Training *)

Lemma df_columns_drop target df :
  df_columns (df_drop target df) = filter (λ c, c ≠ target) (df_columns df).
Proof.
  unfold df_columns, df_drop; cbn.
  induction (df_cols df) as [|c cols IH]; [done|].
  rewrite fmap_cons.
  destruct (decide (col_name c = target)) as [Hc|Hc].
  - rewrite !filter_cons_False by (intros H; by apply H). exact IH.
  - rewrite !filter_cons_True by done. rewrite fmap_cons. by f_equal.
Qed.

Lemma meta_features_of_list meta feats :
  meta !! "features" = Some (PList (PStr <$> feats)) → meta_features meta = Ok feats.
Proof.
  intros Hf. unfold meta_features. rewrite Hf.
  assert (Hm : mapM as_str (PStr <$> feats) = Some feats).
  { apply mapM_Some, Forall2_fmap_l, Forall_Forall2_diag, Forall_true. done. }
  by rewrite Hm.
Qed.

Lemma filter_ne_length (target : string) (l : list string) :
  NoDup l → target ∈ l → S (length (filter (λ c, c ≠ target) l)) = length l.
Proof.
  induction l as [|c l IH]; intros Hnd Hin; [by apply elem_of_nil in Hin|].
  apply NoDup_cons in Hnd as [Hc Hnd].
  destruct (decide (c = target)) as [->|Hne].
  - rewrite filter_cons_False by (intros H; by apply H). cbn. f_equal.
    clear IH Hin Hnd. induction l as [|x l IH]; [done|].
    apply not_elem_of_cons in Hc as [Hx Hc].
    rewrite filter_cons_True by done. cbn. f_equal. by apply IH.
  - rewrite filter_cons_True by done. cbn. f_equal. apply IH; [done|].
    apply elem_of_cons in Hin as [?|?]; [congruence|done].
Qed.

Section TrainingProperties.
Context `{MLBackend}.

Lemma clearml_best_effort_eq mid w :
  clearml_best_effort mid w = (Ok tt, ensure_world w).
Proof.
  unfold clearml_best_effort. py_unfold. rewrite load_model_eq.
  destruct (index_of w !! mid); [|done].
  by destruct (w_artifacts w !! model_path mid).
Qed.

Lemma train_model_under_eq flt dataset_id target_column model_key hyperparams
    test_size shuffle random_state model_id u now w :
  train_model_under flt dataset_id target_column model_key hyperparams
    test_size shuffle random_state model_id u now w =
  match w_datasets w !! dataset_path dataset_id with
  | None => (Raise DatasetNotFoundError, w)
  | Some (CsvBroken detail) => (Raise (DatasetReadError detail), w)
  | Some (CsvFrame df) =>
      if bool_decide (target_column ∈ df_columns df) then
        let X := df_drop target_column df in
        match df_getitem target_column df with
        | Raise e => (Raise e, w)
        | Ok y =>
            match w_registry w !! model_key with
            | None => (Raise (KeyError ("Unknown model_key: " +:+ model_key)), w)
            | Some spec =>
                let pipe := MkPipelineSpec (_build_preprocessor X).1
                              (ModelSpecM.build spec (Some (default ∅ hyperparams))) in
                match train_test_split X y test_size shuffle random_state with
                | Raise e => (Raise e, w)
                | Ok (X_train, X_test, y_train, y_test) =>
                    match pipeline_fit pipe X_train y_train with
                    | Raise e => (Raise e, w)
                    | Ok fitted =>
                        match pipe_predict fitted X_test with
                        | Raise e => (Raise e, w)
                        | Ok y_pred =>
                            match accuracy_score y_test y_pred with
                            | Raise e => (Raise e, w)
                            | Ok acc =>
                                let metrics : gmap string pyval :=
                                  {["accuracy" := PFloat acc]} in
                                let meta :=
                                  train_meta model_key dataset_id target_column
                                    (df_columns X) metrics (default ∅ hyperparams)
                                    test_size shuffle random_state in
                                match save_model_under flt fitted meta model_id u now w with
                                | (Raise e, w') => (Raise e, w')
                                | (Ok mid, w') => (Ok (mid, metrics), ensure_world w')
                                end
                            end
                        end
                    end
                end
            end
        end
      else (Raise (TargetColumnNotFoundError target_column), w)
  end.
Proof.
  unfold train_model_under, load_df, build_model, ModelRegistry.build,
    ModelRegistry.get, train_meta.
  py_unfold.
  destruct (w_datasets w !! dataset_path dataset_id) as [[df|detail]|]; [|done|done].
  case_bool_decide; [|done]. cbn zeta.
  destruct (df_getitem target_column df) as [y|e]; [|done].
  unfold _build_preprocessor. cbn [fst].
  destruct (w_registry w !! model_key) as [spec|]; [|done].
  destruct (train_test_split _ y test_size shuffle random_state)
    as [[[[X_train X_test] y_train] y_test]|e]; [|done].
  destruct (pipeline_fit _ X_train y_train) as [fitted|e]; [|done].
  destruct (pipe_predict fitted X_test) as [y_pred|e]; [|done].
  destruct (accuracy_score y_test y_pred) as [acc|e]; [|done].
  destruct (save_model_under flt fitted _ model_id u now w) as [[mid|e] w'] eqn:Hs;
    [|done].
  fold (clearml_best_effort mid). by rewrite clearml_best_effort_eq.
Qed.

(** C3.  When the dataset file is missing, unreadable, or lacks the
    target column, [train_model] raises [DatasetNotFoundError],
    [DatasetReadError] with the reader's text, or
    [TargetColumnNotFoundError] with the column name, and the world
    (index, artifacts, datasets, registry) is exactly as before. *)
Theorem train_model_fails_before_side_effects
    (flt : io_fault) (dataset_id target_column model_key : string)
    (hyperparams : option (gmap string pyval)) (test_size : Q) (shuffle : bool)
    (random_state : Z) (model_id : option string) (u now : string)
    (w : World) (e : exn) :
  load_failure w dataset_id target_column e →
  train_model_under flt dataset_id target_column model_key hyperparams
    test_size shuffle random_state model_id u now w = (Raise e, w).
Proof.
  intros Hfail. rewrite train_model_under_eq.
  destruct Hfail as [Hd|detail Hd|df Hd Ht]; rewrite Hd; [done|done|].
  by rewrite bool_decide_eq_false_2.
Qed.

(** C7.  After a successful training call on a well-formed store,
    [list_models] holds exactly one record carrying the returned id, and
    the feature order of that record is the list of the frame's columns
    with the target column removed, in the frame's order; its length is
    the number of non-target columns (one less than the number of
    columns when the labels are pairwise distinct). *)
Theorem train_model_records_feature_order
    (dataset_id target_column model_key : string)
    (hyperparams : option (gmap string pyval)) (test_size : Q) (shuffle : bool)
    (random_state : Z) (model_id : option string) (u now : string)
    (w w' : World) (mid : string) (metrics : gmap string pyval) :
  u ≠ "" → store_inv w →
  train_model dataset_id target_column model_key hyperparams
    test_size shuffle random_state model_id u now w = (Ok (mid, metrics), w') →
  ∃ df recs r,
    w_datasets w !! dataset_path dataset_id = Some (CsvFrame df) ∧
    list_models w' = (Ok recs, w') ∧
    filter (λ r, has_model_id mid r = true) recs = [r] ∧
    r !! "features"
      = Some (PList (PStr <$> filter (λ c, c ≠ target_column) (df_columns df))) ∧
    meta_features r = Ok (filter (λ c, c ≠ target_column) (df_columns df)) ∧
    (NoDup (df_columns df) →
       S (length (filter (λ c, c ≠ target_column) (df_columns df)))
       = length (df_columns df)).
Proof.
  intros Hu Hinv. unfold train_model. rewrite train_model_under_eq.
  destruct (w_datasets w !! dataset_path dataset_id) as [[df|detail]|]; [|done|done].
  case_bool_decide as Ht; [|done]. cbn zeta.
  destruct (df_getitem target_column df) as [y|e]; [|done].
  destruct (w_registry w !! model_key) as [spec|]; [|done].
  destruct (train_test_split _ y test_size shuffle random_state)
    as [[[[X_train X_test] y_train] y_test]|e]; [|done].
  destruct (pipeline_fit _ X_train y_train) as [fitted|e]; [|done].
  destruct (pipe_predict fitted X_test) as [y_pred|e]; [|done].
  destruct (accuracy_score y_test y_pred) as [acc|e]; [|done].
  rewrite save_model_under_eq. cbn zeta.
  set (meta := train_meta _ _ _ _ _ _ _ _ _).
  set (m := str_or model_id u).
  intros [= <- <- <-].
  assert (Hfeat : payload_of meta m now !! "features"
            = Some (PList (PStr <$> filter (λ c, c ≠ target_column) (df_columns df)))).
  { rewrite payload_keeps by done. unfold meta, train_meta.
    rewrite !lookup_insert_ne by done. rewrite lookup_insert_eq.
    by rewrite df_columns_drop. }
  exists df, ((map_to_list (<[m := payload_of meta m now]> (index_of w))).*2),
    (payload_of meta m now).
  split; [done|]. split; [|split; [|split; [|split]]].
  - by rewrite list_models_eq.
  - apply records_with_id; [|apply lookup_insert_eq].
    apply index_wf_insert; [done|]. by apply str_or_nonempty.
  - exact Hfeat.
  - by apply meta_features_of_list.
  - intros Hnd. by apply filter_ne_length.
Qed.


End TrainingProperties.

(** ** The training properties on concrete inputs *)

(** The three failures on [demo_world]: no file, a broken file, a frame
    without the column asked for. *)
Lemma train_model_fails_before_side_effects_witness :
  train_model (H := demo_backend) "nope" "target" "logistic_regression" None
    (1 # 5) true 42 None demo_uuid demo_now demo_world
    = (Raise DatasetNotFoundError, demo_world) ∧
  train_model (H := demo_backend) "bad" "target" "logistic_regression" None
    (1 # 5) true 42 None demo_uuid demo_now demo_world
    = (Raise (DatasetReadError "boom"), demo_world) ∧
  train_model (H := demo_backend) "ds1" "label" "logistic_regression" None
    (1 # 5) true 42 None demo_uuid demo_now demo_world
    = (Raise (TargetColumnNotFoundError "label"), demo_world).
Proof.
  split; [|split].
  - apply (train_model_fails_before_side_effects (H := demo_backend)).
    apply lf_missing. vm_compute; reflexivity.
  - apply (train_model_fails_before_side_effects (H := demo_backend)).
    apply lf_unreadable. vm_compute; reflexivity.
  - apply (train_model_fails_before_side_effects (H := demo_backend)).
    apply (lf_no_target _ _ _ demo_frame); [vm_compute; reflexivity|].
    intros Hin. vm_compute in Hin.
    repeat (apply elem_of_cons in Hin as [Hin|Hin]; [discriminate Hin|]).
    by apply elem_of_nil in Hin.
Defined.

(** Training on ["ds1"] with target ["target"]: one record, features
    [age; city]. *)
Lemma train_model_records_feature_order_witness :
  demo_uuid ≠ "" ∧ store_inv demo_world ∧
  train_model (H := demo_backend) "ds1" "target" "logistic_regression"
    (Some demo_params) (1 # 5) true 42 None demo_uuid demo_now demo_world
    = (Ok (demo_uuid, {["accuracy" := PFloat 1]}), demo_trained) ∧
  ∃ recs r,
    list_models demo_trained = (Ok recs, demo_trained) ∧
    filter (λ r, has_model_id demo_uuid r = true) recs = [r] ∧
    meta_features r = Ok ["age"; "city"].
Proof.
  assert (Hu : demo_uuid ≠ "") by done.
  assert (Hinv : store_inv demo_world) by apply index_wf_empty.
  assert (Htrain :
    train_model (H := demo_backend) "ds1" "target" "logistic_regression"
      (Some demo_params) (1 # 5) true 42 None demo_uuid demo_now demo_world
    = (Ok (demo_uuid, {["accuracy" := PFloat 1]}), demo_trained))
    by (vm_compute; reflexivity).
  split; [exact Hu|]. split; [exact Hinv|]. split; [exact Htrain|].
  destruct (train_model_records_feature_order (H := demo_backend) _ _ _ _ _ _ _ _ _ _
              _ _ _ _ Hu Hinv Htrain)
    as (df & recs & r & Hdf & Hlist & Hone & _ & Hfeats & _).
  assert (Hdf' : w_datasets demo_world !! dataset_path "ds1" = Some (CsvFrame demo_frame))
    by (vm_compute; reflexivity).
  rewrite Hdf' in Hdf. injection Hdf as <-.
  exists recs, r. split; [exact Hlist|]. split; [exact Hone|]. exact Hfeats.
Defined.



(** * Further properties of the store *)




(** X1.  What [save_model] stores under the id it returns is what
    [load_model] gives back: the same pipeline, and a record that holds the
    id, the artifact path and the time stamp under [model_id], [path] and
    [created_at] (whatever the caller's metadata had there) and the
    caller's metadata under every other key. *)
Theorem save_then_load_round_trip
    (pipeline : Pipeline) (meta : gmap string pyval) (model_id : option string)
    (u now : string) (w : World) :
  ∃ mid w' rec,
    save_model pipeline meta model_id u now w = (Ok mid, w') ∧
    load_model mid w' = (Ok (pipeline, rec), w') ∧
    rec !! "model_id" = Some (PStr mid) ∧
    rec !! "path" = Some (PStr (model_path mid)) ∧
    rec !! "created_at" = Some (PStr (now +:+ "Z")) ∧
    ∀ k, k ≠ "model_id" → k ≠ "path" → k ≠ "created_at" → rec !! k = meta !! k.
Proof.
  unfold save_model. rewrite save_model_under_eq. cbn zeta.
  set (mid := str_or model_id u).
  eexists mid, _, (payload_of meta mid now). split; [reflexivity|].
  split; [|split; [|split; [|split]]].
  - rewrite load_model_eq.
    change (index_of (MkWorld ?r ?d (Some ?i) ?a)) with i. cbn [w_artifacts].
    by rewrite !lookup_insert_eq.
  - apply payload_model_id.
  - unfold payload_of. rewrite lookup_insert_ne by done. by rewrite lookup_insert_eq.
  - unfold payload_of. by rewrite lookup_insert_eq.
  - intros k ???. by apply payload_keeps.
Qed.





(** X6.  After a save under an id the index did not hold, [list_models]
    yields the new record together with the records listed before (in
    some order); after the delete of an id the index held, the records
    listed before are that id's record together with the records listed
    now. *)
Theorem list_models_follows_save_and_delete
    (pipeline : Pipeline) (meta : gmap string pyval) (model_id : option string)
    (u now : string) (deleted : string) (w : World) :
  (index_of w !! str_or model_id u = None →
     ∃ recs recs',
       (list_models w).1 = Ok recs ∧
       (list_models (save_model pipeline meta model_id u now w).2).1 = Ok recs' ∧
       recs' ≡ₚ payload_of meta (str_or model_id u) now :: recs) ∧
  (∀ rec, index_of w !! deleted = Some rec →
     ∃ recs recs',
       (list_models w).1 = Ok recs ∧
       (list_models (delete_model deleted w).2).1 = Ok recs' ∧
       recs ≡ₚ rec :: recs').
Proof.
  split.
  - intros Hfresh. eexists _, _. rewrite !list_models_eq. cbn [fst].
    split; [reflexivity|]. split; [reflexivity|].
    unfold save_model. rewrite save_model_under_eq. cbn zeta. cbn [snd].
    change (index_of (MkWorld ?r ?d (Some ?i) ?a)) with i.
    by rewrite map_to_list_insert.
  - intros rec Hrec. eexists _, _. rewrite !list_models_eq. cbn [fst].
    split; [reflexivity|]. split; [reflexivity|].
    rewrite delete_model_eq. cbn [snd].
    change (index_of (MkWorld ?r ?d (Some ?i) ?a)) with i.
    rewrite <- (insert_delete_id (index_of w) deleted rec) at 1 by done.
    rewrite map_to_list_insert by apply lookup_delete_eq. done.
Qed.

Lemma same_content_ensure w : same_content w (ensure_world w).
Proof.
  unfold same_content. rewrite index_of_ensure, ensure_world_artifacts.
  by destruct w as [r d [i|] a].
Qed.

Lemma load_model_world model_id w : (load_model model_id w).2 = ensure_world w.
Proof.
  rewrite load_model_eq. destruct (index_of w !! model_id); [|done].
  by destruct (w_artifacts w !! model_path model_id).
Qed.

Lemma predict_world model_id instances w :
  (predict model_id instances w).2 = match instances with
                                      | [] => w
                                      | _ :: _ => ensure_world w
                                      end.
Proof.
  destruct instances as [|inst rest]; [done|].
  rewrite predict_eq. rewrite <- (load_model_world model_id w).
  destruct (load_model model_id w) as [[[pipe meta]|e] w1]; [|done].
  destruct (meta_features meta) as [feats|e]; [|done].
  destruct (build_frame feats (inst :: rest)) as [X|e]; [|done].
  by destruct (pipe_predict pipe X).
Qed.

(** X7.  [load_model], [list_models] and [predict] only read: whatever
    they return or raise, the index entries, the artifact files, the
    datasets and the registry are afterwards what they were (the calls may
    create the empty index file, nothing else). *)
Theorem reads_leave_store_untouched
    (model_id : string) (instances : list (gmap string pyval)) (w : World) :
  same_content w (load_model model_id w).2 ∧
  same_content w (list_models w).2 ∧
  same_content w (predict model_id instances w).2.
Proof.
  split; [|split].
  - rewrite load_model_world. apply same_content_ensure.
  - rewrite list_models_eq. apply same_content_ensure.
  - rewrite predict_world. destruct instances; [done|apply same_content_ensure].
Qed.

(** X8.  An id with an index entry but no artifact file: [load_model] and
    [predict] raise [FileNotFoundError] for the artifact path, the REST
    handler lets that exception through untranslated, and [delete_model]
    reports [true] and removes the entry. *)
Theorem entry_without_artifact
    (model_id : string) (rec : gmap string pyval) (inst : gmap string pyval)
    (rest : list (gmap string pyval)) (w : World) :
  index_of w !! model_id = Some rec →
  w_artifacts w !! model_path model_id = None →
  load_model model_id w
    = (Raise (FileNotFoundError (model_path model_id)), ensure_world w) ∧
  predict model_id (inst :: rest) w
    = (Raise (FileNotFoundError (model_path model_id)), ensure_world w) ∧
  api_predict model_id (inst :: rest) w
    = (Unhandled (FileNotFoundError (model_path model_id)), ensure_world w) ∧
  ∃ w', delete_model model_id w = (Ok true, w') ∧ index_of w' !! model_id = None.
Proof.
  intros Hidx Hart.
  assert (Hload : load_model model_id w
            = (Raise (FileNotFoundError (model_path model_id)), ensure_world w)).
  { by rewrite load_model_eq, Hidx, Hart. }
  assert (Hpred : predict model_id (inst :: rest) w
            = (Raise (FileNotFoundError (model_path model_id)), ensure_world w)).
  { by rewrite predict_eq, Hload. }
  split; [done|]. split; [done|]. split.
  - unfold api_predict. by rewrite Hpred.
  - eexists. rewrite delete_model_eq. split.
    + f_equal. f_equal. apply bool_decide_eq_true_2. left. by rewrite Hidx.
    + change (index_of (MkWorld ?r ?d (Some ?i) ?a)) with i. apply lookup_delete_eq.
Qed.

(** * The REST handlers *)

(** X21.  The [predict] handler answers a request without instances with
    status 400 and ["No instances provided"], whatever the model id, and
    without touching the store; it answers a request with instances for an
    id the index does not hold with status 404 and ["Model not found"]. *)
Theorem api_predict_rejections
    (model_id : string) (instances : list (gmap string pyval)) (w : World) :
  instances = [] ∨ index_of w !! model_id = None →
  api_predict model_id instances w =
  match instances with
  | [] => (HTTPException 400 "No instances provided", w)
  | _ :: _ => (HTTPException 404 "Model not found", ensure_world w)
  end.
Proof.
  intros Hcase. unfold api_predict. destruct instances as [|inst rest]; [done|].
  destruct Hcase as [?|Hidx]; [done|].
  by rewrite predict_eq, load_model_eq, Hidx.
Qed.

(** X22.  An exception of the stored pipeline's own [predict] is not
    swallowed: [predict] raises it.  The REST handler reports a
    [ValueError] as status 400 with ["Prediction failed: "] and its text,
    and a [KeyError] as status 404 ["Model not found"], although the model
    exists. *)
Theorem predict_pipeline_error
    (model_id : string) (instances : list (gmap string pyval)) (w w1 : World)
    (pipe : Pipeline) (meta : gmap string pyval) (feats : list string)
    (X : DataFrame) (e : exn) :
  instances ≠ [] →
  load_model model_id w = (Ok (pipe, meta), w1) →
  meta_features meta = Ok feats →
  build_frame feats instances = Ok X →
  pipe_predict pipe X = Raise e →
  predict model_id instances w = (Raise e, w1) ∧
  (∀ msg, e = ValueError msg →
     api_predict model_id instances w
     = (HTTPException 400 ("Prediction failed: " +:+ msg), w1)) ∧
  (∀ msg, e = KeyError msg →
     api_predict model_id instances w = (HTTPException 404 "Model not found", w1)).
Proof.
  intros Hne Hload Hmeta HX Hp. destruct instances as [|inst rest]; [done|].
  assert (Hpred : predict model_id (inst :: rest) w = (Raise e, w1)).
  { by rewrite predict_eq, Hload, Hmeta, HX, Hp. }
  split; [done|]. unfold api_predict. rewrite Hpred.
  split; intros msg ->; reflexivity.
Qed.

(** X23.  The [delete_model] handler answers 404 ["Model not found"]
    exactly when the id had neither an index entry nor an artifact file,
    and returns the id otherwise; a repeated request for the same id is
    always answered 404. *)
Theorem api_delete_model_statuses (model_id : string) (w : World) :
  ∃ r w',
    api_delete_model model_id w = (r, w') ∧
    (r = HTTPException 404 "Model not found" ↔
       index_of w !! model_id = None ∧ w_artifacts w !! model_path model_id = None) ∧
    (r = HttpReturn model_id ↔
       is_Some (index_of w !! model_id) ∨ is_Some (w_artifacts w !! model_path model_id)) ∧
    api_delete_model model_id w' = (HTTPException 404 "Model not found", w').
Proof.
  unfold api_delete_model. rewrite delete_model_eq.
  set (w' := MkWorld _ _ _ _).
  assert (Hagain : delete_model model_id w' = (Ok false, w')).
  { rewrite delete_model_eq. subst w'.
    change (index_of (MkWorld ?r ?d (Some ?i) ?a)) with i. cbn [w_artifacts w_registry w_datasets].
    rewrite !lookup_delete_eq, !delete_delete_eq.
    rewrite bool_decide_eq_false_2; [done|]. by intros [[? ?]|[? ?]]. }
  case_bool_decide as Hex.
  - eexists _, w'. split; [reflexivity|]. split; [|split].
    + split; [done|]. intros [Hi Ha]. rewrite Hi, Ha in Hex.
      destruct Hex as [[? ?]|[? ?]]; done.
    + done.
    + by rewrite Hagain.
  - eexists _, w'. split; [reflexivity|]. split; [|split].
    + split; [|done]. intros _. split; apply eq_None_not_Some; intros ?; apply Hex; auto.
    + split; [done|]. intros ?. done.
    + by rewrite Hagain.
Qed.

(** * Further properties of the registry *)

(** X9.  [register] files a spec under its key: a following [get] of that
    key returns the spec, replacing whatever was registered there before;
    every other key answers as before, and nothing but the registry
    changes. *)
Theorem register_then_get (spec : ModelSpec) (other : string) (w : World) :
  ∃ w',
    ModelRegistry.register spec w = (Ok tt, w') ∧
    ModelRegistry.get (key spec) w' = (Ok spec, w') ∧
    (other ≠ key spec → (ModelRegistry.get other w').1 = (ModelRegistry.get other w).1) ∧
    w_index w' = w_index w ∧ w_artifacts w' = w_artifacts w ∧ w_datasets w' = w_datasets w.
Proof.
  eexists. split; [reflexivity|]. unfold ModelRegistry.get. py_unfold.
  cbn [w_registry set_registry w_index w_artifacts w_datasets].
  split; [by rewrite lookup_insert_eq|]. split; [|done].
  intros Hne. rewrite lookup_insert_ne by done.
  by destruct (w_registry w !! other).
Qed.

(** X10.  [list_keys] returns the registered keys, each once, in
    ascending order, and changes nothing. *)
Theorem list_keys_sorted (w : World) :
  ∃ ks,
    list_keys w = (Ok ks, w) ∧
    Sorted String.le ks ∧
    NoDup ks ∧
    ∀ k, k ∈ ks ↔ is_Some (w_registry w !! k).
Proof.
  eexists. split; [reflexivity|]. split; [|split].
  - apply Sorted_merge_sort. apply _.
  - rewrite merge_sort_Permutation. apply NoDup_fst_map_to_list.
  - intros k. rewrite merge_sort_Permutation.
    rewrite list_elem_of_fmap. split.
    + intros [[k' spec] [-> Hin]]. apply elem_of_map_to_list in Hin. by eexists.
    + intros [spec Hk]. exists (k, spec). split; [done|]. by apply elem_of_map_to_list.
Qed.

(** X11.  Hyperparameters none of whose keys is a default key change
    nothing: the estimator is built with exactly the defaults, as when no
    hyperparameters are given. *)
Theorem build_ignores_unknown_only
    (spec : ModelSpec) (params : option (gmap string pyval)) :
  (∀ k, is_Some (default ∅ params !! k) → defaults spec !! k = None) →
  est_params (ModelSpecM.build spec params) = defaults spec ∧
  ModelSpecM.build spec params = ModelSpecM.build spec None.
Proof.
  intros Hdis.
  assert (Hp : est_params (ModelSpecM.build spec params) = defaults spec).
  { apply map_eq. intros k. rewrite build_params_lookup.
    destruct (defaults spec !! k) as [d|] eqn:Hd; [|done].
    destruct (default ∅ params !! k) as [v|] eqn:Hv; [|done].
    rewrite Hdis in Hd by (by rewrite Hv). done. }
  split; [done|].
  assert (Hn : est_params (ModelSpecM.build spec None) = defaults spec).
  { apply map_eq. intros k. rewrite build_params_lookup. cbn.
    rewrite lookup_empty. by destruct (defaults spec !! k). }
  unfold ModelSpecM.build in *. cbn [est_params] in *. by rewrite Hp, Hn.
Qed.

(** * Further properties of training *)

Section MoreTraining.
Context `{MLBackend}.

(** X13.  [_build_preprocessor] sorts every column of the frame into
    exactly one of the two groups: a label is a column of the frame exactly
    when it is a numeric or a categorical column of the transformer, never
    both; the feature order it returns is the frame's column list. *)
Theorem build_preprocessor_partitions (X : DataFrame) :
  ∃ prep feature_order,
    _build_preprocessor X = (prep, feature_order) ∧
    feature_order = df_columns X ∧
    (∀ c, c ∈ df_columns X ↔ c ∈ num_cols prep ∨ c ∈ cat_cols prep) ∧
    (∀ c, c ∈ num_cols prep → c ∉ cat_cols prep).
Proof.
  eexists _, _. split; [reflexivity|]. split; [reflexivity|].
  cbn [num_cols cat_cols]. split.
  - intros c. rewrite list_elem_of_filter. split.
    + intros Hc.
      destruct (decide (c ∈ col_name <$> filter (λ c0, is_categorical c0 = true) (df_cols X)));
        auto.
    + intros [[_ Hc]|Hc]; [done|].
      apply list_elem_of_fmap in Hc as [col [-> Hcol]].
      apply list_elem_of_filter in Hcol as [_ Hcol].
      unfold df_columns. by apply list_elem_of_fmap_2.
  - intros c Hc. by apply list_elem_of_filter in Hc as [Hc _].
Qed.

(** X12.  A model key that is not registered: [train_model] raises
    [KeyError] with the text ["Unknown model_key: "] and the key, after the
    dataset was loaded and the target column found, and before anything is
    written; the REST handler has no clause for it and lets it through. *)
Theorem train_model_unknown_key
    (flt : io_fault) (req : TrainRequest) (u now : string) (w : World) (df : DataFrame) :
  w_datasets w !! dataset_path (req_dataset_id req) = Some (CsvFrame df) →
  req_target_column req ∈ df_columns df →
  w_registry w !! req_model_key req = None →
  train_model_under flt (req_dataset_id req) (req_target_column req) (req_model_key req)
    (req_hyperparams req) (req_test_size req) (req_shuffle req) (req_random_state req)
    (req_model_id req) u now w
    = (Raise (KeyError ("Unknown model_key: " +:+ req_model_key req)), w) ∧
  api_train req u now w
    = (Unhandled (KeyError ("Unknown model_key: " +:+ req_model_key req)), w).
Proof.
  intros Hd Ht Hk.
  destruct (find_col_is_Some (req_target_column req) (df_cols df) Ht) as [col Hcol].
  split.
  - rewrite train_model_under_eq, Hd. rewrite bool_decide_eq_true_2 by done.
    cbn zeta. unfold df_getitem. by rewrite Hcol, Hk.
  - unfold api_train, train_model. rewrite train_model_under_eq, Hd.
    rewrite bool_decide_eq_true_2 by done.
    cbn zeta. unfold df_getitem. by rewrite Hcol, Hk.
Qed.

(** X19.  The [train] handler answers a missing dataset with status 404
    ["Dataset not found"], an unreadable one with status 400 and
    ["Failed to read dataset: "] followed by the reader's text, and a
    missing target column with status 400 and
    ["Target column ... not found"]; in each case nothing was written. *)
Theorem api_train_early_failures
    (req : TrainRequest) (u now : string) (w : World) (e : exn) :
  load_failure w (req_dataset_id req) (req_target_column req) e →
  api_train req u now w =
  (match e with
   | DatasetNotFoundError => HTTPException 404 "Dataset not found"
   | DatasetReadError detail => HTTPException 400 ("Failed to read dataset: " +:+ detail)
   | _ => HTTPException 400
            ("Target column " +:+ req_target_column req +:+ " not found")
   end, w).
Proof.
  intros Hfail. unfold api_train, train_model. rewrite train_model_under_eq.
  destruct Hfail as [Hd|detail Hd|df Hd Ht]; rewrite Hd; [done|done|].
  by rewrite bool_decide_eq_false_2.
Qed.

(** X20.  When the library rejects the split or the fit with a
    [ValueError], the [train] handler answers status 400 with the
    library's text and nothing was written; any exception of the library
    that is no [ValueError] passes the handler untranslated. *)
Theorem api_train_library_failures
    (req : TrainRequest) (u now : string) (w : World)
    (df : DataFrame) (y : list pyval) (spec : ModelSpec) (e : exn) :
  w_datasets w !! dataset_path (req_dataset_id req) = Some (CsvFrame df) →
  req_target_column req ∈ df_columns df →
  df_getitem (req_target_column req) df = Ok y →
  w_registry w !! req_model_key req = Some spec →
  library_rejects
    (MkPipelineSpec (_build_preprocessor (df_drop (req_target_column req) df)).1
       (ModelSpecM.build spec (Some (default ∅ (req_hyperparams req)))))
    (df_drop (req_target_column req) df) y
    (req_test_size req) (req_shuffle req) (req_random_state req) e →
  api_train req u now w = (train_except e, w) ∧
  (∀ msg, e = ValueError msg → api_train req u now w = (HTTPException 400 msg, w)) ∧
  (isinstance_ValueError e = false → e ≠ DatasetNotFoundError →
     api_train req u now w = (Unhandled e, w)).
Proof.
  intros Hd Ht Hy Hk Hrej.
  assert (Hapi : api_train req u now w = (train_except e, w)).
  { unfold api_train, train_model. rewrite train_model_under_eq, Hd.
    rewrite bool_decide_eq_true_2 by done. cbn zeta. rewrite Hy, Hk.
    change (default ∅ (Some (default ∅ (req_hyperparams req))))
      with (default ∅ (req_hyperparams req)).
    destruct Hrej as [e Hsplit|X_train X_test y_train y_test e Hsplit Hfit].
    - by rewrite Hsplit.
    - by rewrite Hsplit, Hfit. }
  split; [done|]. rewrite Hapi. split.
  - by intros msg ->.
  - intros Hv Hne. by destruct e.
Qed.

(** What a successful training call did, step by step. *)
Lemma train_model_success_inv
    dataset_id target_column model_key hyperparams test_size shuffle random_state
    model_id u now w w' mid metrics :
  train_model dataset_id target_column model_key hyperparams
    test_size shuffle random_state model_id u now w = (Ok (mid, metrics), w') →
  ∃ df y spec X_train X_test y_train y_test fitted y_pred acc,
    w_datasets w !! dataset_path dataset_id = Some (CsvFrame df) ∧
    target_column ∈ df_columns df ∧
    df_getitem target_column df = Ok y ∧
    w_registry w !! model_key = Some spec ∧
    train_test_split (df_drop target_column df) y test_size shuffle random_state
      = Ok (X_train, X_test, y_train, y_test) ∧
    pipeline_fit
      (MkPipelineSpec (_build_preprocessor (df_drop target_column df)).1
         (ModelSpecM.build spec (Some (default ∅ hyperparams))))
      X_train y_train = Ok fitted ∧
    pipe_predict fitted X_test = Ok y_pred ∧
    accuracy_score y_test y_pred = Ok acc ∧
    mid = str_or model_id u ∧
    metrics = {["accuracy" := PFloat acc]} ∧
    w' = MkWorld (w_registry w) (w_datasets w)
           (Some (<[mid := payload_of
                      (train_meta model_key dataset_id target_column
                         (df_columns (df_drop target_column df)) metrics
                         (default ∅ hyperparams) test_size shuffle random_state)
                      mid now]> (index_of w)))
           (<[model_path mid := fitted]> (w_artifacts w)).
Proof.
  unfold train_model. rewrite train_model_under_eq.
  destruct (w_datasets w !! dataset_path dataset_id) as [[df|detail]|]; [|done|done].
  case_bool_decide as Ht; [|done]. cbn zeta.
  destruct (df_getitem target_column df) as [y|e] eqn:Hy; [|done].
  destruct (w_registry w !! model_key) as [spec|] eqn:Hk; [|done].
  destruct (train_test_split _ y test_size shuffle random_state)
    as [[[[X_train X_test] y_train] y_test]|e] eqn:Hsplit; [|done].
  destruct (pipeline_fit _ X_train y_train) as [fitted|e] eqn:Hfit; [|done].
  destruct (pipe_predict fitted X_test) as [y_pred|e] eqn:Hpred; [|done].
  destruct (accuracy_score y_test y_pred) as [acc|e] eqn:Hacc; [|done].
  rewrite save_model_under_eq. cbn zeta. intros [= <- <- <-].
  exists df, y, spec, X_train, X_test, y_train, y_test, fitted, y_pred, acc.
  repeat (split; [done|]). reflexivity.
Qed.

(** X14.  After a successful training call the store holds, under the
    returned id, the pipeline the fit returned for an estimator built from
    the registered spec with the caller's hyperparameters, and a record of
    the call: model key, dataset id, target column, hyperparameters, split
    settings, and the very metrics the call returned. *)
Theorem train_model_records_the_call
    (dataset_id target_column model_key : string)
    (hyperparams : option (gmap string pyval)) (test_size : Q) (shuffle : bool)
    (random_state : Z) (model_id : option string) (u now : string)
    (w w' : World) (mid : string) (metrics : gmap string pyval) :
  train_model dataset_id target_column model_key hyperparams
    test_size shuffle random_state model_id u now w = (Ok (mid, metrics), w') →
  mid = str_or model_id u ∧
  ∃ pipe rec spec prep X_train y_train,
    load_model mid w' = (Ok (pipe, rec), w') ∧
    w_registry w !! model_key = Some spec ∧
    pipeline_fit (MkPipelineSpec prep (ModelSpecM.build spec (Some (default ∅ hyperparams))))
      X_train y_train = Ok pipe ∧
    rec !! "model_key" = Some (PStr model_key) ∧
    rec !! "dataset_id" = Some (PStr dataset_id) ∧
    rec !! "target_column" = Some (PStr target_column) ∧
    rec !! "hyperparams" = Some (PDict (default ∅ hyperparams)) ∧
    rec !! "metrics" = Some (PDict metrics) ∧
    rec !! "test_size" = Some (PFloat test_size) ∧
    rec !! "shuffle" = Some (PBool shuffle) ∧
    rec !! "random_state" = Some (PInt random_state).
Proof.
  intros Htrain.
  destruct (train_model_success_inv _ _ _ _ _ _ _ _ _ _ _ _ _ _ Htrain)
    as (df & y & spec & X_train & X_test & y_train & y_test & fitted & y_pred & acc
        & Hd & Ht & Hy & Hk & Hsplit & Hfit & Hpred & Hacc & Hmid & Hmet & Hw').
  split; [done|].
  eexists fitted, _, spec, _, X_train, y_train.
  split; [|split; [done|split; [exact Hfit|]]].
  - rewrite load_model_eq, Hw'.
    change (index_of (MkWorld ?r ?d (Some ?i) ?a)) with i. cbn [w_artifacts].
    by rewrite !lookup_insert_eq.
  - repeat split; (rewrite payload_keeps by done); unfold train_meta;
      rewrite ?lookup_insert_ne by done; by rewrite lookup_insert_eq.
Qed.


(** X16.  Training followed by inference: for a non-empty list of
    instances, [predict] on the id a successful training call returned
    hands the fitted pipeline a frame whose columns are the training
    frame's columns without the target, in that order (when there is at
    least one such column), and returns or raises what the pipeline does
    on that frame. *)
Theorem train_then_predict
    (dataset_id target_column model_key : string)
    (hyperparams : option (gmap string pyval)) (test_size : Q) (shuffle : bool)
    (random_state : Z) (model_id : option string) (u now : string)
    (w w' : World) (mid : string) (metrics : gmap string pyval)
    (instances : list (gmap string pyval)) :
  train_model dataset_id target_column model_key hyperparams
    test_size shuffle random_state model_id u now w = (Ok (mid, metrics), w') →
  instances ≠ [] →
  ∃ df pipe X,
    w_datasets w !! dataset_path dataset_id = Some (CsvFrame df) ∧
    w_artifacts w' !! model_path mid = Some pipe ∧
    (filter (λ c, c ≠ target_column) (df_columns df) ≠ [] →
       build_frame (filter (λ c, c ≠ target_column) (df_columns df)) instances = Ok X ∧
       df_columns X = filter (λ c, c ≠ target_column) (df_columns df) ∧
       df_nrows X = length instances ∧
       predict mid instances w' =
         match pipe_predict pipe X with
         | Ok preds => (Ok (preds, match proba_attempt pipe X with
                                   | Ok p => p
                                   | Raise _ => None
                                   end), w')
         | Raise e => (Raise e, w')
         end).
Proof.
  intros Htrain Hinst.
  destruct (train_model_success_inv _ _ _ _ _ _ _ _ _ _ _ _ _ _ Htrain)
    as (df & y & spec & X_train & X_test & y_train & y_test & fitted & y_pred & acc
        & Hd & _ & _ & _ & _ & _ & _ & _ & _ & _ & Hw').
  set (feats := filter (λ c, c ≠ target_column) (df_columns df)).
  exists df, fitted, (Frame (length instances) (aligned_column instances <$> feats)).
  split; [done|]. split; [rewrite Hw'; apply lookup_insert_eq|].
  intros Hfeats. split; [by apply build_frame_aligned|].
  split; [|split; [done|]].
  - unfold df_columns; cbn. rewrite <- list_fmap_compose. apply list_fmap_id.
  - destruct instances as [|inst rest]; [done|].
    rewrite predict_eq, load_model_eq, Hw'.
    change (index_of (MkWorld ?r ?d (Some ?i) ?a)) with i. cbn [w_artifacts].
    rewrite !lookup_insert_eq.
    rewrite (meta_features_of_list _ feats).
    + rewrite (build_frame_aligned feats (inst :: rest) Hfeats). done.
    + rewrite payload_keeps by done. unfold train_meta.
      rewrite !lookup_insert_ne by done. rewrite lookup_insert_eq.
      by rewrite df_columns_drop.
Qed.


End MoreTraining.

(** * Further properties of inference *)

Lemma instance_keys_elem instances c :
  c ∈ instance_keys instances ↔ ∃ inst, inst ∈ instances ∧ is_Some (inst !! c).
Proof.
  split.
  - unfold instance_keys. rewrite elem_of_remove_dups, list_elem_of_bind.
    intros (inst & Hc & Hin). exists inst. split; [done|].
    apply list_elem_of_fmap in Hc as [[k v] [-> Hkv]].
    apply elem_of_map_to_list in Hkv. by eexists.
  - intros (inst & Hin & [x Hx]). by eapply instance_keys_lookup.
Qed.

Lemma restrict_instance_lookup feats inst c :
  c ∈ feats → restrict_instance feats inst !! c = inst !! c.
Proof.
  intros Hc. unfold restrict_instance. apply option_eq. intros v.
  rewrite map_lookup_filter_Some. cbn. split; [by intros [? _]|done].
Qed.

(** X18.  Fields of an instance that are no recorded feature have no
    influence on the frame handed to the pipeline: removing them from
    every instance beforehand gives the same frame. *)
Theorem build_frame_ignores_extra_fields
    (feats : list string) (instances : list (gmap string pyval)) :
  feats ≠ [] →
  build_frame feats (restrict_instance feats <$> instances) = build_frame feats instances.
Proof.
  intros Hne. rewrite !build_frame_aligned by done.
  rewrite length_fmap. do 2 f_equal.
  apply Forall_fmap_ext_1, Forall_forall. intros c Hc.
  unfold aligned_column. f_equal.
  assert (Hkeys : c ∈ instance_keys (restrict_instance feats <$> instances)
                  ↔ c ∈ instance_keys instances).
  { rewrite !instance_keys_elem. split.
    - intros (inst' & Hin & Hsome).
      apply list_elem_of_fmap in Hin as [inst [-> Hin]].
      exists inst. split; [done|]. by rewrite restrict_instance_lookup in Hsome.
    - intros (inst & Hin & Hsome). exists (restrict_instance feats inst).
      split; [by apply list_elem_of_fmap_2|]. by rewrite restrict_instance_lookup. }
  destruct (decide (c ∈ instance_keys instances)) as [Hin|Hout].
  - rewrite decide_True by (by apply Hkeys).
    rewrite <- list_fmap_compose. apply Forall_fmap_ext_1, Forall_forall.
    intros inst _. cbn. by rewrite restrict_instance_lookup.
  - rewrite decide_False by (by rewrite Hkeys). by rewrite length_fmap.
Qed.

(** * The dataset files *)

(** X24.  [storage.delete_dataset] reports whether the data file existed.
    When it did, the file and its sidecar are gone afterwards, [load_df]
    of the id raises [DatasetNotFoundError], a second delete reports
    [false], and no other dataset, no model and no other sidecar is
    touched.  When it did not, nothing changes: a sidecar left without its
    data file stays. *)
Theorem storage_delete_dataset_spec (dataset_id : string) (dw : DataWorld) :
  ∃ existed dw',
    storage_delete_dataset dataset_id dw = (existed, dw') ∧
    (existed = true ↔ is_Some (w_datasets (dw_world dw) !! dataset_path dataset_id)) ∧
    (existed = false → dw' = dw) ∧
    load_df dataset_id (dw_world dw') = (Raise DatasetNotFoundError, dw_world dw') ∧
    (existed = true → dw_sidecars dw' !! sidecar_path (dataset_path dataset_id) = None) ∧
    storage_delete_dataset dataset_id dw' = (false, dw') ∧
    (∀ p, p ≠ dataset_path dataset_id →
       w_datasets (dw_world dw') !! p = w_datasets (dw_world dw) !! p) ∧
    (∀ p, p ≠ sidecar_path (dataset_path dataset_id) →
       dw_sidecars dw' !! p = dw_sidecars dw !! p) ∧
    w_index (dw_world dw') = w_index (dw_world dw) ∧
    w_artifacts (dw_world dw') = w_artifacts (dw_world dw).
Proof.
  unfold storage_delete_dataset. cbn zeta.
  destruct dw as [w sc]. cbn [dw_world dw_sidecars].
  case_bool_decide as Hex.
  - assert (Hgone : ∀ sc', storage_delete_dataset dataset_id
              (MkDataWorld (set_datasets (delete (dataset_path dataset_id) (w_datasets w)) w) sc')
              = (false, MkDataWorld (set_datasets (delete (dataset_path dataset_id) (w_datasets w)) w) sc')).
    { intros sc'. unfold storage_delete_dataset. cbn.
      rewrite bool_decide_eq_false_2; [done|].
      rewrite lookup_delete_eq. by intros [? ?]. }
    assert (Hload : load_df dataset_id (set_datasets (delete (dataset_path dataset_id) (w_datasets w)) w)
              = (Raise DatasetNotFoundError,
                 set_datasets (delete (dataset_path dataset_id) (w_datasets w)) w)).
    { unfold load_df. py_unfold. cbn. by rewrite lookup_delete_eq. }
    case_bool_decide as Hsc; eexists true, _; (split; [reflexivity|]);
      cbn [dw_world dw_sidecars];
      (split; [done|]); (split; [done|]); (split; [exact Hload|]).
    + split; [intros _; apply lookup_delete_eq|].
      split; [apply Hgone|].
      split; [intros p Hp; cbn; by rewrite lookup_delete_ne|].
      split; [intros p Hp; by rewrite lookup_delete_ne|]. done.
    + split; [intros _; by apply eq_None_not_Some|].
      split; [apply Hgone|].
      split; [intros p Hp; cbn; by rewrite lookup_delete_ne|]. done.
  - assert (Hnone : w_datasets w !! dataset_path dataset_id = None)
      by (by apply eq_None_not_Some).
    eexists false, _. split; [reflexivity|]. cbn [dw_world dw_sidecars].
    split; [done|]. split; [done|].
    split; [unfold load_df; py_unfold; by rewrite Hnone|].
    split; [done|].
    split; [unfold storage_delete_dataset; cbn; by rewrite bool_decide_eq_false_2|].
    done.
Qed.

(** * The further properties on concrete inputs *)

Lemma demo_saved_reachable : reachable demo_saved.
Proof.
  apply (reach_save NoFault demo_pipeline {["features" := PList [PStr "age"]]}
           None demo_uuid demo_now demo_world); [apply reach_fresh|reflexivity].
Qed.

Lemma demo_train_run :
  train_model (H := demo_backend) "ds1" "target" "logistic_regression"
    (Some demo_params) (1 # 5) true 42 None demo_uuid demo_now demo_world
  = (Ok (demo_uuid, {["accuracy" := PFloat 1]}), demo_trained).
Proof. vm_compute; reflexivity. Qed.




Lemma reachable_store_inv_witness : reachable demo_saved ∧ store_inv demo_saved.
Proof.
  split; [exact demo_saved_reachable|].
  exact (reachable_store_inv demo_saved demo_saved_reachable).
Defined.

Lemma list_models_follows_save_and_delete_witness :
  (∃ recs recs',
     (list_models demo_saved).1 = Ok recs ∧
     (list_models (save_model demo_pipeline ∅ (Some "second") demo_uuid demo_now
                     demo_saved).2).1 = Ok recs' ∧
     recs' ≡ₚ payload_of ∅ "second" demo_now :: recs) ∧
  (∃ recs recs',
     (list_models demo_saved).1 = Ok recs ∧
     (list_models (delete_model demo_uuid demo_saved).2).1 = Ok recs' ∧
     recs ≡ₚ payload_of {["features" := PList [PStr "age"]]} demo_uuid demo_now :: recs').
Proof.
  destruct (list_models_follows_save_and_delete demo_pipeline ∅ (Some "second")
              demo_uuid demo_now demo_uuid demo_saved) as [Hsave Hdel].
  split.
  - apply Hsave. vm_compute; reflexivity.
  - apply Hdel. vm_compute; reflexivity.
Defined.

Lemma entry_without_artifact_witness :
  load_model "m1" demo_corrupt
    = (Raise (FileNotFoundError (model_path "m1")), ensure_world demo_corrupt) ∧
  ∃ w', delete_model "m1" demo_corrupt = (Ok true, w') ∧ index_of w' !! "m1" = None.
Proof.
  destruct (entry_without_artifact "m1" {["model_id" := PStr "m1"]} ∅ [] demo_corrupt)
    as (Hload & _ & _ & Hdel).
  - vm_compute; reflexivity.
  - vm_compute; reflexivity.
  - split; [exact Hload|exact Hdel].
Defined.

Lemma build_ignores_unknown_only_witness :
  est_params (ModelSpecM.build logistic_regression_spec
                (Some {["bogus_param" := PInt 1]}))
  = defaults logistic_regression_spec.
Proof.
  apply (build_ignores_unknown_only logistic_regression_spec
           (Some {["bogus_param" := PInt 1]})).
  intros k [v Hk]. cbn in Hk.
  apply lookup_singleton_Some in Hk as [<- _]. vm_compute; reflexivity.
Defined.

Lemma train_model_unknown_key_witness :
  api_train (H := demo_backend) (demo_request "ds1" "svm" (1 # 5)) demo_uuid demo_now demo_world
  = (Unhandled (KeyError "Unknown model_key: svm"), demo_world).
Proof.
  apply (train_model_unknown_key (H := demo_backend) NoFault
           (demo_request "ds1" "svm" (1 # 5)) demo_uuid demo_now demo_world demo_frame).
  - vm_compute; reflexivity.
  - vm_compute. do 2 right. left.
  - vm_compute; reflexivity.
Defined.

Lemma api_train_early_failures_witness :
  api_train (H := demo_backend) (demo_request "nope" "logistic_regression" (1 # 5))
    demo_uuid demo_now demo_world
  = (HTTPException 404 "Dataset not found", demo_world) ∧
  api_train (H := demo_backend) (demo_request "bad" "logistic_regression" (1 # 5))
    demo_uuid demo_now demo_world
  = (HTTPException 400 "Failed to read dataset: boom", demo_world).
Proof.
  split.
  - apply (api_train_early_failures (H := demo_backend)
             (demo_request "nope" "logistic_regression" (1 # 5)) demo_uuid demo_now
             demo_world DatasetNotFoundError).
    apply lf_missing. vm_compute; reflexivity.
  - apply (api_train_early_failures (H := demo_backend)
             (demo_request "bad" "logistic_regression" (1 # 5)) demo_uuid demo_now
             demo_world (DatasetReadError "boom")).
    apply lf_unreadable. vm_compute; reflexivity.
Defined.

Lemma api_train_library_failures_witness :
  api_train (H := demo_backend) (demo_request "ds1" "logistic_regression" (3 # 2))
    demo_uuid demo_now demo_world
  = (HTTPException 400 "test_size out of range", demo_world).
Proof.
  destruct (api_train_library_failures (H := demo_backend)
              (demo_request "ds1" "logistic_regression" (3 # 2)) demo_uuid demo_now
              demo_world demo_frame [PInt 0; PInt 1] logistic_regression_spec
              (ValueError "test_size out of range")) as (_ & Hval & _).
  - vm_compute; reflexivity.
  - vm_compute. do 2 right. left.
  - reflexivity.
  - vm_compute; reflexivity.
  - apply rejects_split. reflexivity.
  - exact (Hval "test_size out of range" eq_refl).
Defined.

Lemma train_model_records_the_call_witness :
  ∃ pipe rec,
    load_model demo_uuid demo_trained = (Ok (pipe, rec), demo_trained) ∧
    rec !! "model_key" = Some (PStr "logistic_regression") ∧
    rec !! "dataset_id" = Some (PStr "ds1") ∧
    rec !! "hyperparams" = Some (PDict demo_params) ∧
    rec !! "metrics" = Some (PDict {["accuracy" := PFloat 1]}).
Proof.
  destruct (train_model_records_the_call (H := demo_backend) _ _ _ _ _ _ _ _ _ _ _ _ _ _
              demo_train_run)
    as (_ & pipe & rec & spec & prep & Xt & yt & Hload & _ & _ & Hk & Hd & _ & Hh & Hm & _).
  exists pipe, rec. repeat split; assumption.
Defined.


Lemma train_then_predict_witness :
  ∃ X preds probs,
    build_frame ["age"; "city"] demo_instances = Ok X ∧
    df_columns X = ["age"; "city"] ∧
    predict demo_uuid demo_instances demo_trained = (Ok (preds, probs), demo_trained).
Proof.
  destruct (train_then_predict (H := demo_backend) _ _ _ _ _ _ _ _ _ _ _ _ _ _
              demo_instances demo_train_run) as (df & pipe & X & Hdf & Hart & Hrest).
  - done.
  - assert (Hdf' : w_datasets demo_world !! dataset_path "ds1" = Some (CsvFrame demo_frame))
      by (vm_compute; reflexivity).
    rewrite Hdf' in Hdf. injection Hdf as <-.
    assert (Hart' : w_artifacts demo_trained !! model_path demo_uuid = Some demo_pipeline)
      by (vm_compute; reflexivity).
    rewrite Hart' in Hart. injection Hart as <-.
    assert (Hfeats : filter (λ c, c ≠ "target") (df_columns demo_frame) = ["age"; "city"])
      by (vm_compute; reflexivity).
    rewrite Hfeats in Hrest.
    destruct Hrest as (HX & Hcols & _ & Hpred); [done|].
    eexists X, _, _. split; [exact HX|]. split; [exact Hcols|]. exact Hpred.
Defined.

Lemma build_frame_ignores_extra_fields_witness :
  build_frame ["age"; "city"] (restrict_instance ["age"; "city"] <$> demo_instances)
  = build_frame ["age"; "city"] demo_instances.
Proof. apply build_frame_ignores_extra_fields. done. Defined.

Lemma api_predict_rejections_witness :
  api_predict "never-trained" [] demo_trained
    = (HTTPException 400 "No instances provided", demo_trained) ∧
  api_predict "never-trained" demo_instances demo_trained
    = (HTTPException 404 "Model not found", ensure_world demo_trained).
Proof.
  split.
  - apply (api_predict_rejections "never-trained" [] demo_trained). by left.
  - apply (api_predict_rejections "never-trained" demo_instances demo_trained).
    right. vm_compute; reflexivity.
Defined.

Lemma predict_pipeline_error_witness :
  is_Some (index_of demo_saved_raising !! demo_uuid) ∧
  api_predict demo_uuid demo_instances demo_saved_raising
  = (HTTPException 404 "Model not found", demo_saved_raising).
Proof.
  split; [by eexists|].
  destruct (predict_pipeline_error demo_uuid demo_instances demo_saved_raising
              demo_saved_raising demo_pipeline_raising
              (payload_of {["features" := PList [PStr "age"]]} demo_uuid demo_now)
              ["age"] (Frame 2 [Column "age" [PInt 3; PNaN]]) (KeyError "city"))
    as (_ & _ & Hkey).
  - done.
  - vm_compute; reflexivity.
  - vm_compute; reflexivity.
  - vm_compute; reflexivity.
  - reflexivity.
  - exact (Hkey "city" eq_refl).
Defined.

Lemma storage_delete_dataset_on_demo :
  ∃ dw',
    storage_delete_dataset "ds1" demo_data_world = (true, dw') ∧
    dw_sidecars dw' !! sidecar_path (dataset_path "ds1") = None ∧
    load_df "ds1" (dw_world dw') = (Raise DatasetNotFoundError, dw_world dw') ∧
    storage_delete_dataset "ds1" dw' = (false, dw').
Proof.
  destruct (storage_delete_dataset_spec "ds1" demo_data_world)
    as (existed & dw' & Hdel & Hex & _ & Hload & Hsc & Hagain & _).
  assert (Htrue : existed = true).
  { apply Hex. eexists. vm_compute; reflexivity. }
  subst existed. exists dw'. split; [exact Hdel|]. split; [by apply Hsc|].
  split; [exact Hload|exact Hagain].
Defined.
